(** * AGV gold-lending backend: loan lifecycle, payment ledger and overdue engine

    A shallow embedding of the parts of the backend that carry domain logic:

    - [src/utils/helpers.ts]        : [calculateEMI], [calculateLTV], [generateLoanNumber]
    - [src/services/overdueService.ts] : the [OverdueService] class
    - [src/routes/payments.ts]      : the [POST /api/payments] handler
    - the loans router              : [POST /api/loans], [PUT /:id/reject], [PUT /:id/disburse]
    - the overdue job               : [startOverdueCheckJob], [runOverdueCheckNow]

    Modelling conventions.

    - A JavaScript [Date] is its time value: milliseconds since the epoch, in [Z].
      The calendar methods ([getMonth], [getDate], [setMonth], [setDate]) follow
      the ECMAScript definitions ([MakeDay], [MakeDate], [LocalTime]) over the
      proleptic Gregorian calendar.  The local time zone is a fixed offset [tz]
      from UTC (no daylight-saving rule), and time values stay within the range
      in which [TimeClip] is the identity.
    - A JavaScript [number] holding money or a rate, and a Prisma [Decimal], are
      exact rationals ([Q]); [Math.round x] is [floor (x + 1/2)].  The two
      integer quotients the service floors (whole days, 30.44-day months) are
      computed in [Z]: their divisors, 86400000 and 2630016000, are exactly
      representable and the quotient of two integers below 2^53 is never rounded
      across an integer.
    - The Prisma client is a store of loan rows keyed by id ([gmap string Loan])
      and a list of payment rows; [update] on a missing row throws, as Prisma
      does (P2025).  [schema.prisma] is not among the sources: columns the
      database maintains by itself (creation and update timestamps), the
      gold-item rows and uniqueness constraints are left out.
    - [async] code is a state-and-exception monad over the [World]: the store,
      the console, and the system clock, which is a sequence of readings, one
      consumed by every [new Date()] / [Date.now()]. *)

From Stdlib Require Import ZArith QArith Qminmax Qround Qabs Qpower Lia Lqa List.
From Stdlib Require Import Sorted.
From stdpp Require Import gmap strings pretty.

(** ** The [Date] object of the JavaScript runtime *)

Module JsDate.
Local Open Scope Z_scope.

Definition msPerDay : Z := 86400000.

Definition Day (t : Z) : Z := t / msPerDay.
Definition TimeWithinDay (t : Z) : Z := t mod msPerDay.

(** Day number (days since 1970-01-01) of the civil date [y]-[m]-[d], with
    [m] in 1..12; [d] may lie outside the month and then counts on. *)
Definition days_from_civil (y m d : Z) : Z :=
  let y' := if m <=? 2 then y - 1 else y in
  let era := y' / 400 in
  let yoe := y' - era * 400 in
  let mp := if 2 <? m then m - 3 else m + 9 in
  let doy := (153 * mp + 2) / 5 + d - 1 in
  let doe := yoe * 365 + yoe / 4 - yoe / 100 + doy in
  era * 146097 + doe - 719468.

(** Civil date (year, month 1..12, day 1..31) of a day number. *)
Definition civil_from_days (z : Z) : Z * Z * Z :=
  let z' := z + 719468 in
  let era := z' / 146097 in
  let doe := z' - era * 146097 in
  let yoe := (doe - doe / 1460 + doe / 36524 - doe / 146096) / 365 in
  let doy := doe - (365 * yoe + yoe / 4 - yoe / 100) in
  let mp := (5 * doy + 2) / 153 in
  let d := doy - (153 * mp + 2) / 5 + 1 in
  let m := if mp <? 10 then mp + 3 else mp - 9 in
  let y := yoe + era * 400 in
  (if m <=? 2 then y + 1 else y, m, d).

Definition YearFromTime (t : Z) : Z := fst (fst (civil_from_days (Day t))).
(** Months are numbered from 0 (January) in ECMAScript. *)
Definition MonthFromTime (t : Z) : Z := snd (fst (civil_from_days (Day t))) - 1.
Definition DateFromTime (t : Z) : Z := snd (civil_from_days (Day t)).

(** [MakeDay]: the month may lie outside 0..11 and carries into the year. *)
Definition MakeDay (year month date : Z) : Z :=
  let ym := year + month / 12 in
  let mn := month mod 12 in
  days_from_civil ym (mn + 1) 1 + date - 1.

Definition MakeDate (day time : Z) : Z := day * msPerDay + time.

(** Milliseconds of [y]-[m]-[d] [hh]:[mi] UTC, for writing instants down. *)
Definition utc (y m d hh mi : Z) : Z :=
  MakeDate (days_from_civil y m d) ((hh * 60 + mi) * 60000).

Section LocalZone.
(** Offset of local time from UTC, in milliseconds. *)
Variable tz : Z.

Definition LocalTime (t : Z) : Z := t + tz.
Definition UTC (t : Z) : Z := t - tz.

Definition getFullYear (d : Z) : Z := YearFromTime (LocalTime d).
Definition getMonth (d : Z) : Z := MonthFromTime (LocalTime d).
Definition getDate (d : Z) : Z := DateFromTime (LocalTime d).

Definition setMonth (d : Z) (month : Z) : Z :=
  let t := LocalTime d in
  UTC (MakeDate (MakeDay (YearFromTime t) month (DateFromTime t)) (TimeWithinDay t)).

Definition setDate (d : Z) (date : Z) : Z :=
  let t := LocalTime d in
  UTC (MakeDate (MakeDay (YearFromTime t) (MonthFromTime t) date) (TimeWithinDay t)).
End LocalZone.

End JsDate.

(** ** The data model (the Prisma schema's [Loan] and [Payment] rows) *)

Module LoanStatus.
Inductive t := PENDING | APPROVED | ACTIVE | COMPLETED | REJECTED | DEFAULTED.
Definition eqb (a b : t) : bool :=
  match a, b with
  | PENDING, PENDING | APPROVED, APPROVED | ACTIVE, ACTIVE
  | COMPLETED, COMPLETED | REJECTED, REJECTED | DEFAULTED, DEFAULTED => true
  | _, _ => false
  end.
End LoanStatus.

Module PenaltyType.
Inductive t := PERCENTAGE | FIXED.
End PenaltyType.

Module PaymentType.
Inductive t :=
| LOAN_DISBURSEMENT | EMI_PAYMENT | PARTIAL_PAYMENT
| INTEREST_PAYMENT | PENALTY_PAYMENT | LOAN_CLOSURE.
End PaymentType.

Module PaymentStatus.
Inductive t := PENDING | COMPLETED | FAILED | CANCELLED.
End PaymentStatus.

Module Loan.
Record t := mk {
  id : string;
  loanNumber : string;
  customerId : string;
  principalAmount : Q;
  interestRate : Q;
  tenure : Z;
  emiAmount : option Q;
  outstandingBalance : Q;
  totalAmountPaid : Q;
  totalGoldWeight : Q;
  totalGoldValue : Q;
  ltvRatio : Q;
  status : LoanStatus.t;
  approvalDate : option Z;
  disbursementDate : option Z;
  maturityDate : option Z;
  lastPaymentDate : option Z;
  purpose : option string;
  remarks : option string;
  createdById : string;
  approvedById : option string;
  isOverdue : bool;
  daysOverdue : Z;
  overdueAmount : Q;
  penaltyAmount : Q;
  nextDueDate : option Z;
  overdueSince : option Z;
  penaltyRate : Q;
  penaltyType : PenaltyType.t
}.

(** One entry of the [data] object of [prisma.loan.update]: the columns the
    backend ever writes after creation. *)
Inductive field :=
| set_status (v : LoanStatus.t)
| set_approvalDate (v : option Z)
| set_approvedById (v : option string)
| set_remarks (v : option string)
| set_disbursementDate (v : option Z)
| set_totalAmountPaid (v : Q)
| set_outstandingBalance (v : Q)
| set_lastPaymentDate (v : option Z)
| set_isOverdue (v : bool)
| set_daysOverdue (v : Z)
| set_overdueAmount (v : Q)
| set_penaltyAmount (v : Q)
| set_nextDueDate (v : option Z)
| set_overdueSince (v : option Z).

Definition assign (l : t) (f : field) : t :=
  match f with
  | set_status v =>
      mk (id l) (loanNumber l) (customerId l) (principalAmount l) (interestRate l)
         (tenure l) (emiAmount l) (outstandingBalance l) (totalAmountPaid l)
         (totalGoldWeight l) (totalGoldValue l) (ltvRatio l) v (approvalDate l)
         (disbursementDate l) (maturityDate l) (lastPaymentDate l) (purpose l)
         (remarks l) (createdById l) (approvedById l) (isOverdue l) (daysOverdue l)
         (overdueAmount l) (penaltyAmount l) (nextDueDate l) (overdueSince l)
         (penaltyRate l) (penaltyType l)
  | set_approvalDate v =>
      mk (id l) (loanNumber l) (customerId l) (principalAmount l) (interestRate l)
         (tenure l) (emiAmount l) (outstandingBalance l) (totalAmountPaid l)
         (totalGoldWeight l) (totalGoldValue l) (ltvRatio l) (status l) v
         (disbursementDate l) (maturityDate l) (lastPaymentDate l) (purpose l)
         (remarks l) (createdById l) (approvedById l) (isOverdue l) (daysOverdue l)
         (overdueAmount l) (penaltyAmount l) (nextDueDate l) (overdueSince l)
         (penaltyRate l) (penaltyType l)
  | set_approvedById v =>
      mk (id l) (loanNumber l) (customerId l) (principalAmount l) (interestRate l)
         (tenure l) (emiAmount l) (outstandingBalance l) (totalAmountPaid l)
         (totalGoldWeight l) (totalGoldValue l) (ltvRatio l) (status l)
         (approvalDate l) (disbursementDate l) (maturityDate l) (lastPaymentDate l)
         (purpose l) (remarks l) (createdById l) v (isOverdue l) (daysOverdue l)
         (overdueAmount l) (penaltyAmount l) (nextDueDate l) (overdueSince l)
         (penaltyRate l) (penaltyType l)
  | set_remarks v =>
      mk (id l) (loanNumber l) (customerId l) (principalAmount l) (interestRate l)
         (tenure l) (emiAmount l) (outstandingBalance l) (totalAmountPaid l)
         (totalGoldWeight l) (totalGoldValue l) (ltvRatio l) (status l)
         (approvalDate l) (disbursementDate l) (maturityDate l) (lastPaymentDate l)
         (purpose l) v (createdById l) (approvedById l) (isOverdue l) (daysOverdue l)
         (overdueAmount l) (penaltyAmount l) (nextDueDate l) (overdueSince l)
         (penaltyRate l) (penaltyType l)
  | set_disbursementDate v =>
      mk (id l) (loanNumber l) (customerId l) (principalAmount l) (interestRate l)
         (tenure l) (emiAmount l) (outstandingBalance l) (totalAmountPaid l)
         (totalGoldWeight l) (totalGoldValue l) (ltvRatio l) (status l)
         (approvalDate l) v (maturityDate l) (lastPaymentDate l) (purpose l)
         (remarks l) (createdById l) (approvedById l) (isOverdue l) (daysOverdue l)
         (overdueAmount l) (penaltyAmount l) (nextDueDate l) (overdueSince l)
         (penaltyRate l) (penaltyType l)
  | set_totalAmountPaid v =>
      mk (id l) (loanNumber l) (customerId l) (principalAmount l) (interestRate l)
         (tenure l) (emiAmount l) (outstandingBalance l) v (totalGoldWeight l)
         (totalGoldValue l) (ltvRatio l) (status l) (approvalDate l)
         (disbursementDate l) (maturityDate l) (lastPaymentDate l) (purpose l)
         (remarks l) (createdById l) (approvedById l) (isOverdue l) (daysOverdue l)
         (overdueAmount l) (penaltyAmount l) (nextDueDate l) (overdueSince l)
         (penaltyRate l) (penaltyType l)
  | set_outstandingBalance v =>
      mk (id l) (loanNumber l) (customerId l) (principalAmount l) (interestRate l)
         (tenure l) (emiAmount l) v (totalAmountPaid l) (totalGoldWeight l)
         (totalGoldValue l) (ltvRatio l) (status l) (approvalDate l)
         (disbursementDate l) (maturityDate l) (lastPaymentDate l) (purpose l)
         (remarks l) (createdById l) (approvedById l) (isOverdue l) (daysOverdue l)
         (overdueAmount l) (penaltyAmount l) (nextDueDate l) (overdueSince l)
         (penaltyRate l) (penaltyType l)
  | set_lastPaymentDate v =>
      mk (id l) (loanNumber l) (customerId l) (principalAmount l) (interestRate l)
         (tenure l) (emiAmount l) (outstandingBalance l) (totalAmountPaid l)
         (totalGoldWeight l) (totalGoldValue l) (ltvRatio l) (status l)
         (approvalDate l) (disbursementDate l) (maturityDate l) v (purpose l)
         (remarks l) (createdById l) (approvedById l) (isOverdue l) (daysOverdue l)
         (overdueAmount l) (penaltyAmount l) (nextDueDate l) (overdueSince l)
         (penaltyRate l) (penaltyType l)
  | set_isOverdue v =>
      mk (id l) (loanNumber l) (customerId l) (principalAmount l) (interestRate l)
         (tenure l) (emiAmount l) (outstandingBalance l) (totalAmountPaid l)
         (totalGoldWeight l) (totalGoldValue l) (ltvRatio l) (status l)
         (approvalDate l) (disbursementDate l) (maturityDate l) (lastPaymentDate l)
         (purpose l) (remarks l) (createdById l) (approvedById l) v (daysOverdue l)
         (overdueAmount l) (penaltyAmount l) (nextDueDate l) (overdueSince l)
         (penaltyRate l) (penaltyType l)
  | set_daysOverdue v =>
      mk (id l) (loanNumber l) (customerId l) (principalAmount l) (interestRate l)
         (tenure l) (emiAmount l) (outstandingBalance l) (totalAmountPaid l)
         (totalGoldWeight l) (totalGoldValue l) (ltvRatio l) (status l)
         (approvalDate l) (disbursementDate l) (maturityDate l) (lastPaymentDate l)
         (purpose l) (remarks l) (createdById l) (approvedById l) (isOverdue l) v
         (overdueAmount l) (penaltyAmount l) (nextDueDate l) (overdueSince l)
         (penaltyRate l) (penaltyType l)
  | set_overdueAmount v =>
      mk (id l) (loanNumber l) (customerId l) (principalAmount l) (interestRate l)
         (tenure l) (emiAmount l) (outstandingBalance l) (totalAmountPaid l)
         (totalGoldWeight l) (totalGoldValue l) (ltvRatio l) (status l)
         (approvalDate l) (disbursementDate l) (maturityDate l) (lastPaymentDate l)
         (purpose l) (remarks l) (createdById l) (approvedById l) (isOverdue l)
         (daysOverdue l) v (penaltyAmount l) (nextDueDate l) (overdueSince l)
         (penaltyRate l) (penaltyType l)
  | set_penaltyAmount v =>
      mk (id l) (loanNumber l) (customerId l) (principalAmount l) (interestRate l)
         (tenure l) (emiAmount l) (outstandingBalance l) (totalAmountPaid l)
         (totalGoldWeight l) (totalGoldValue l) (ltvRatio l) (status l)
         (approvalDate l) (disbursementDate l) (maturityDate l) (lastPaymentDate l)
         (purpose l) (remarks l) (createdById l) (approvedById l) (isOverdue l)
         (daysOverdue l) (overdueAmount l) v (nextDueDate l) (overdueSince l)
         (penaltyRate l) (penaltyType l)
  | set_nextDueDate v =>
      mk (id l) (loanNumber l) (customerId l) (principalAmount l) (interestRate l)
         (tenure l) (emiAmount l) (outstandingBalance l) (totalAmountPaid l)
         (totalGoldWeight l) (totalGoldValue l) (ltvRatio l) (status l)
         (approvalDate l) (disbursementDate l) (maturityDate l) (lastPaymentDate l)
         (purpose l) (remarks l) (createdById l) (approvedById l) (isOverdue l)
         (daysOverdue l) (overdueAmount l) (penaltyAmount l) v (overdueSince l)
         (penaltyRate l) (penaltyType l)
  | set_overdueSince v =>
      mk (id l) (loanNumber l) (customerId l) (principalAmount l) (interestRate l)
         (tenure l) (emiAmount l) (outstandingBalance l) (totalAmountPaid l)
         (totalGoldWeight l) (totalGoldValue l) (ltvRatio l) (status l)
         (approvalDate l) (disbursementDate l) (maturityDate l) (lastPaymentDate l)
         (purpose l) (remarks l) (createdById l) (approvedById l) (isOverdue l)
         (daysOverdue l) (overdueAmount l) (penaltyAmount l) (nextDueDate l) v
         (penaltyRate l) (penaltyType l)
  end.

(** The row after an update with the given [data], applied in order. *)
Definition update (l : t) (data : list field) : t := fold_left assign data l.
End Loan.

Module Payment.
Record t := mk {
  loanId : string;
  amount : Q;
  paymentType : PaymentType.t;
  paymentMethod : string;
  transactionId : option string;
  dueDate : option Z;
  principalAmount : option Q;
  interestAmount : option Q;
  penaltyAmount : option Q;
  notes : option string;
  receiptNumber : option string;
  createdById : string;
  status : PaymentStatus.t
}.
End Payment.

(** The body of [POST /api/payments] ([CreatePaymentRequest]), after
    validation; an ISO-8601 [dueDate] is given by the instant it denotes. *)
Module CreatePaymentRequest.
Record t := mk {
  loanId : string;
  amount : Q;
  paymentType : PaymentType.t;
  paymentMethod : string;
  transactionId : option string;
  dueDate : option Z;
  principalAmount : option Q;
  interestAmount : option Q;
  penaltyAmount : option Q;
  notes : option string
}.
End CreatePaymentRequest.

Module GoldItem.
Record t := mk {
  itemType : string;
  weight : Q;
  purity : string;
  description : option string;
  currentRate : Q
}.
End GoldItem.

(** The body of [POST /api/loans] ([CreateLoanRequest]), after validation. *)
Module CreateLoanRequest.
Record t := mk {
  customerId : string;
  principalAmount : Q;
  interestRate : Q;
  tenure : Z;
  goldItems : option (list GoldItem.t);
  purpose : option string;
  remarks : option string
}.
End CreateLoanRequest.

(** ** The world: database, console and clock *)

Inductive Exn :=
| RecordNotFound (model : string)   (* Prisma P2025 *)
| Error (message : string).

Inductive LogEntry :=
| console_log (message : string)
| console_error (message : string) (e : Exn).

Record World := mkWorld {
  loans : gmap string Loan.t;
  payments : list Payment.t;
  customers : gset string;
  console : list LogEntry;
  clock : nat -> Z;       (* the k-th reading of the system clock *)
  ticks : nat             (* readings consumed so far *)
}.

Inductive Outcome (A : Type) :=
| Returned (a : A)
| Thrown (e : Exn).
Arguments Returned {A} a.
Arguments Thrown {A} e.

(** An [async] computation: runs in a world, returns or throws, and leaves a
    world behind either way. *)
Definition M (A : Type) : Type := World -> Outcome A * World.

Definition ret {A} (a : A) : M A := fun w => (Returned a, w).

Definition bind {A B} (m : M A) (k : A -> M B) : M B :=
  fun w =>
    match m w with
    | (Returned a, w') => k a w'
    | (Thrown e, w') => (Thrown e, w')
    end.

Definition throw {A} (e : Exn) : M A := fun w => (Thrown e, w).

(** [try { m } catch (error) { h error }] *)
Definition try_catch {A} (m : M A) (h : Exn -> M A) : M A :=
  fun w =>
    match m w with
    | (Returned a, w') => (Returned a, w')
    | (Thrown e, w') => h e w'
    end.

Declare Scope async_scope.
Delimit Scope async_scope with async.
Notation "'let*' x ':=' c 'in' k" := (bind c (fun x => k))
  (at level 10, x name, c at level 100, k at level 200) : async_scope.
Notation "c ';;' k" := (bind c (fun _ => k))
  (at level 100, k at level 200, right associativity) : async_scope.
Local Open Scope async_scope.

(** [for (const x of xs) { body }], the loop's mutable locals passed along. *)
Fixpoint for_of {A S} (xs : list A) (body : A -> S -> M S) (s : S) : M S :=
  match xs with
  | [] => ret s
  | x :: rest => let* s' := body x s in for_of rest body s'
  end.

(** [new Date()] and [Date.now()]: the next reading of the clock. *)
Definition new_Date : M Z :=
  fun w => (Returned (clock w (ticks w)),
            mkWorld (loans w) (payments w) (customers w) (console w) (clock w) (S (ticks w))).

Definition log (e : LogEntry) : M unit :=
  fun w => (Returned tt,
            mkWorld (loans w) (payments w) (customers w) (console w ++ [e]) (clock w) (ticks w)).

Module prisma.
Definition loan_findUnique (id : string) : M (option Loan.t) :=
  fun w => (Returned (loans w !! id), w).

(** Rows are returned in the store's order; no caller depends on it. *)
Definition loan_findMany (where_ : Loan.t -> bool) : M (list Loan.t) :=
  fun w => (Returned (filter (fun l => where_ l = true) (map snd (map_to_list (loans w)))), w).

Definition loan_update (id : string) (data : list Loan.field) : M Loan.t :=
  fun w =>
    match loans w !! id with
    | None => (Thrown (RecordNotFound "Loan"), w)
    | Some l =>
        let l' := Loan.update l data in
        (Returned l',
         mkWorld (<[id := l']> (loans w)) (payments w) (customers w) (console w) (clock w) (ticks w))
    end.

(** [id] stands for the identifier the database generates for the row. *)
Definition loan_create (l : Loan.t) : M Loan.t :=
  fun w =>
    (Returned l,
     mkWorld (<[Loan.id l := l]> (loans w)) (payments w) (customers w) (console w) (clock w) (ticks w)).

Definition payment_create (p : Payment.t) : M Payment.t :=
  fun w =>
    (Returned p,
     mkWorld (loans w) (payments w ++ [p]) (customers w) (console w) (clock w) (ticks w)).

Definition payment_findMany (where_ : Payment.t -> bool) : M (list Payment.t) :=
  fun w => (Returned (filter (fun p => where_ p = true) (payments w)), w).

Definition customer_exists (id : string) : M bool :=
  fun w => (Returned (bool_decide (id ∈ customers w)), w).

(** [prisma.$transaction(async tx => ...)]: the database writes of a
    callback that throws are rolled back; its console output and clock
    readings are not. *)
Definition transaction {A} (m : M A) : M A :=
  fun w =>
    match m w with
    | (Returned a, w') => (Returned a, w')
    | (Thrown e, w') =>
        (Thrown e, mkWorld (loans w) (payments w) (customers w) (console w') (clock w') (ticks w'))
    end.
End prisma.

(** ** [src/utils/helpers.ts] *)

Module helpers.
Local Open Scope Q_scope.

(** [Math.round]: to the nearest integer, halves towards +infinity. *)
Definition Math_round (x : Q) : Q := inject_Z (Qfloor (x + (1 # 2))).

Definition calculateEMI (principal rate : Q) (tenure : Z) : Q :=
  let monthlyRate := rate / (12 * 100) in
  let emi := (principal * monthlyRate * (1 + monthlyRate) ^ tenure) /
             ((1 + monthlyRate) ^ tenure - 1) in
  Math_round (emi * 100) / 100.

Definition calculateLTV (loanAmount goldValue : Q) : Q :=
  Math_round ((loanAmount / goldValue) * 100 * 100) / 100.

(** [s.slice(-n)] and [s.padStart(2, '0')] *)
Definition slice_last (n : nat) (s : string) : string :=
  String.substring (String.length s - n) n s.
Definition padStart2 (s : string) : string :=
  match String.length s with
  | O => "00" | S O => "0" +:+ s | _ => s
  end%string.

Section LocalZone.
Variable tz : Z.

Definition generateLoanNumber : M string :=
  let* date := new_Date in
  let year := slice_last 2 (pretty (JsDate.getFullYear tz date)) in
  let month := padStart2 (pretty (JsDate.getMonth tz date + 1)%Z) in
  let day := padStart2 (pretty (JsDate.getDate tz date)) in
  let* now := new_Date in
  let timestamp := slice_last 6 (pretty now) in
  ret ("GL" +:+ year +:+ month +:+ day +:+ timestamp).
End LocalZone.
End helpers.

(** ** [src/services/overdueService.ts] *)

Module OverdueCalculationResult.
Record t := mk {
  isOverdue : bool;
  daysOverdue : Z;
  overdueAmount : Q;
  penaltyAmount : Q;
  nextDueDate : option Z
}.
End OverdueCalculationResult.

Module OverdueFilters.
Record t := mk {
  minDaysOverdue : option Z;
  maxDaysOverdue : option Z;
  minAmount : option Q
}.
End OverdueFilters.

Module SweepResult.
Record t := mk {
  totalProcessed : nat;
  newOverdueCount : nat;
  clearedOverdueCount : nat
}.
End SweepResult.

Module OverdueService.
Import JsDate.

Definition calculatePenalty (loan : Loan.t) (daysOverdue : Z) (overdueAmount : Q) : Q :=
  if (daysOverdue <=? 0)%Z then 0%Q
  else
    let penaltyRate := Loan.penaltyRate loan in
    match Loan.penaltyType loan with
    | PenaltyType.PERCENTAGE =>
        (overdueAmount * (penaltyRate / 100 / 365) * inject_Z daysOverdue)%Q
    | _ =>
        (penaltyRate * inject_Z daysOverdue)%Q
    end.

Section LocalZone.
Variable tz : Z.
Local Open Scope Z_scope.

Definition calculateNextDueDate (loan : Loan.t) : M (option Z) :=
  match Loan.disbursementDate loan with
  | None => ret None
  | Some disbursementDate =>
      let lastPaymentDate := Loan.lastPaymentDate loan in
      let* now := new_Date in
      match lastPaymentDate with
      | Some lastPaymentDate =>
          let nextDue := lastPaymentDate in
          let nextDue := setMonth tz nextDue (getMonth tz nextDue + 1) in
          let nextDue := setDate tz nextDue (getDate tz disbursementDate) in
          ret (Some nextDue)
      | None =>
          let nextDue := disbursementDate in
          let nextDue := setMonth tz nextDue (getMonth tz nextDue + 1) in
          if nextDue <? now then
            let monthsSinceDisbursement := (now - disbursementDate) / 2630016000 in
            let nextDue :=
              setMonth tz nextDue
                       (getMonth tz disbursementDate + monthsSinceDisbursement + 1) in
            let nextDue := setDate tz nextDue (getDate tz disbursementDate) in
            ret (Some nextDue)
          else ret (Some nextDue)
      end
  end.

Definition calculateOverdueStatus (loan : Loan.t) : M OverdueCalculationResult.t :=
  let* now := new_Date in
  if negb (LoanStatus.eqb (Loan.status loan) LoanStatus.ACTIVE) then
    ret (OverdueCalculationResult.mk false 0 0%Q 0%Q None)
  else
    let* nextDueDate := calculateNextDueDate loan in
    match nextDueDate with
    | None => ret (OverdueCalculationResult.mk false 0 0%Q 0%Q nextDueDate)
    | Some due =>
        if now <=? due then
          ret (OverdueCalculationResult.mk false 0 0%Q 0%Q nextDueDate)
        else
          let daysOverdue := (now - due) / (1000 * 60 * 60 * 24) in
          let emiAmount := default 0%Q (Loan.emiAmount loan) in
          let outstanding := Loan.outstandingBalance loan in
          let overdueAmount := Qmin emiAmount outstanding in
          let penaltyAmount := calculatePenalty loan daysOverdue overdueAmount in
          ret (OverdueCalculationResult.mk true daysOverdue overdueAmount
                                           penaltyAmount nextDueDate)
    end.

Definition updateLoanOverdueStatus (loanId : string) : M Loan.t :=
  let* loan := prisma.loan_findUnique loanId in
  match loan with
  | None => throw (Error "Loan not found")
  | Some loan =>
      let* overdueStatus := calculateOverdueStatus loan in
      let* overdueSince :=
        (if OverdueCalculationResult.isOverdue overdueStatus && negb (Loan.isOverdue loan)
         then let* d := new_Date in ret (Some d)
         else ret (Loan.overdueSince loan)) in
      let* updatedLoan :=
        prisma.loan_update loanId
          [ Loan.set_isOverdue (OverdueCalculationResult.isOverdue overdueStatus);
            Loan.set_daysOverdue (OverdueCalculationResult.daysOverdue overdueStatus);
            Loan.set_overdueAmount (OverdueCalculationResult.overdueAmount overdueStatus);
            Loan.set_penaltyAmount (OverdueCalculationResult.penaltyAmount overdueStatus);
            Loan.set_nextDueDate (OverdueCalculationResult.nextDueDate overdueStatus);
            Loan.set_overdueSince overdueSince ] in
      ret updatedLoan
  end.

(** The body of the [for (const loan of activeLoans)] loop; the loop's
    locals are [(newOverdueCount, clearedOverdueCount)]. *)
Definition updateAllOverdueLoans_body (loan : Loan.t) (counts : nat * nat)
    : M (nat * nat) :=
  let wasOverdue := Loan.isOverdue loan in
  let* overdueStatus := calculateOverdueStatus loan in
  let* overdueSince :=
    (if OverdueCalculationResult.isOverdue overdueStatus && negb wasOverdue
     then let* d := new_Date in ret (Some d)
     else ret (Loan.overdueSince loan)) in
  prisma.loan_update (Loan.id loan)
    [ Loan.set_isOverdue (OverdueCalculationResult.isOverdue overdueStatus);
      Loan.set_daysOverdue (OverdueCalculationResult.daysOverdue overdueStatus);
      Loan.set_overdueAmount (OverdueCalculationResult.overdueAmount overdueStatus);
      Loan.set_penaltyAmount (OverdueCalculationResult.penaltyAmount overdueStatus);
      Loan.set_nextDueDate (OverdueCalculationResult.nextDueDate overdueStatus);
      Loan.set_overdueSince overdueSince ] ;;
  let newOverdueCount :=
    if negb wasOverdue && OverdueCalculationResult.isOverdue overdueStatus
    then S (fst counts) else fst counts in
  let clearedOverdueCount :=
    if wasOverdue && negb (OverdueCalculationResult.isOverdue overdueStatus)
    then S (snd counts) else snd counts in
  ret (newOverdueCount, clearedOverdueCount).

(** [updateAllOverdueLoans] from the point where [findMany] has returned
    [activeLoans].  Every [await] lets other requests run, so a row of the
    list may have changed or gone by the time the loop reaches it. *)
Definition updateAllOverdueLoans_from (activeLoans : list Loan.t)
    : M SweepResult.t :=
  let* counts := for_of activeLoans updateAllOverdueLoans_body (O, O) in
  ret (SweepResult.mk (length activeLoans) (fst counts) (snd counts)).

Definition updateAllOverdueLoans : M SweepResult.t :=
  let* activeLoans :=
    prisma.loan_findMany (fun l => LoanStatus.eqb (Loan.status l) LoanStatus.ACTIVE) in
  updateAllOverdueLoans_from activeLoans.
End LocalZone.

(** [orderBy: { daysOverdue: 'desc' }] *)
Fixpoint insert_desc (l : Loan.t) (ls : list Loan.t) : list Loan.t :=
  match ls with
  | [] => [l]
  | x :: rest =>
      if (Loan.daysOverdue x <? Loan.daysOverdue l)%Z then l :: x :: rest
      else x :: insert_desc l rest
  end.
Definition orderBy_daysOverdue_desc (ls : list Loan.t) : list Loan.t :=
  fold_right insert_desc [] ls.

(** A filter applies when it is present and truthy (not 0). *)
Definition getOverdueLoans (filters : OverdueFilters.t) : M (list Loan.t) :=
  let gte_days l :=
    match OverdueFilters.minDaysOverdue filters with
    | Some n => if (n =? 0)%Z then true else (n <=? Loan.daysOverdue l)%Z
    | None => true
    end in
  let lte_days l :=
    match OverdueFilters.maxDaysOverdue filters with
    | Some n => if (n =? 0)%Z then true else (Loan.daysOverdue l <=? n)%Z
    | None => true
    end in
  let gte_amount l :=
    match OverdueFilters.minAmount filters with
    | Some a => if Qeq_bool a 0 then true else Qle_bool a (Loan.overdueAmount l)
    | None => true
    end in
  let* loans :=
    prisma.loan_findMany (fun l =>
      Loan.isOverdue l && LoanStatus.eqb (Loan.status l) LoanStatus.ACTIVE
      && gte_days l && lte_days l && gte_amount l) in
  ret (orderBy_daysOverdue_desc loans).

Definition checkAndMarkDefaulted (loanId : string) (defaultThresholdDays : Z) : M bool :=
  let* loan := prisma.loan_findUnique loanId in
  match loan with
  | None => ret false
  | Some loan =>
      if negb (Loan.isOverdue loan) then ret false
      else if (defaultThresholdDays <=? Loan.daysOverdue loan)%Z then
        prisma.loan_update loanId [Loan.set_status LoanStatus.DEFAULTED] ;;
        ret true
      else ret false
  end.
End OverdueService.

(** ** The HTTP routes *)

Module Response.
(** [res.status(code).json({ success, message, data })] *)
Record t (A : Type) := mk {
  statusCode : Z;
  success : bool;
  message : string;
  data : option A
}.
Arguments mk {A}.
Arguments statusCode {A}.
Arguments success {A}.
Arguments message {A}.
Arguments data {A}.
End Response.

(** *** [src/routes/payments.ts]: [POST /api/payments] *)

Module payments.
Definition updatesBalance (ty : PaymentType.t) : bool :=
  match ty with
  | PaymentType.EMI_PAYMENT | PaymentType.PARTIAL_PAYMENT | PaymentType.LOAN_CLOSURE => true
  | _ => false
  end.

Section LocalZone.
Variable tz : Z.

Definition recordPayment (userId : string) (paymentData : CreatePaymentRequest.t)
    : M (Response.t Payment.t) :=
  let loanId := CreatePaymentRequest.loanId paymentData in
  let amount := CreatePaymentRequest.amount paymentData in
  let* loan := prisma.loan_findUnique loanId in
  match loan with
  | None => ret (Response.mk 404 false "Loan not found" None)
  | Some _ =>
      let* stamp := new_Date in
      let receiptNumber := ("RCP" +:+ pretty stamp)%string in
      let* result :=
        prisma.transaction
          (let* payment :=
             prisma.payment_create
               (Payment.mk loanId amount
                  (CreatePaymentRequest.paymentType paymentData)
                  (CreatePaymentRequest.paymentMethod paymentData)
                  (CreatePaymentRequest.transactionId paymentData)
                  (CreatePaymentRequest.dueDate paymentData)
                  (CreatePaymentRequest.principalAmount paymentData)
                  (CreatePaymentRequest.interestAmount paymentData)
                  (CreatePaymentRequest.penaltyAmount paymentData)
                  (CreatePaymentRequest.notes paymentData)
                  (Some receiptNumber) userId PaymentStatus.COMPLETED) in
           (if updatesBalance (CreatePaymentRequest.paymentType paymentData) then
              let* updatedLoan := prisma.loan_findUnique loanId in
              match updatedLoan with
              | Some updatedLoan =>
                  let newTotalPaid := (Loan.totalAmountPaid updatedLoan + amount)%Q in
                  let newOutstanding := (Loan.outstandingBalance updatedLoan - amount)%Q in
                  let* lastPaymentDate := new_Date in
                  prisma.loan_update loanId
                    [ Loan.set_totalAmountPaid newTotalPaid;
                      Loan.set_outstandingBalance (Qmax 0 newOutstanding);
                      Loan.set_lastPaymentDate (Some lastPaymentDate);
                      Loan.set_status
                        (if Qle_bool newOutstanding 0 then LoanStatus.COMPLETED
                         else Loan.status updatedLoan) ] ;;
                  ret tt
              | None => ret tt
              end
            else ret tt) ;;
           ret payment) in
      try_catch
        (OverdueService.updateLoanOverdueStatus tz loanId ;; ret tt)
        (fun error => log (console_error "Error updating overdue status:" error)) ;;
      ret (Response.mk 201 true "Payment recorded successfully" (Some result))
  end.
End LocalZone.
End payments.

(** *** The loans router: [POST /api/loans], [PUT /:id/reject], [PUT /:id/disburse] *)

Module loans.
Import JsDate.

(** Modelled from the spec: the column defaults of [schema.prisma], which
    is not among the sources.  A loan is created PENDING and not overdue;
    the penalty configuration of a new loan is left open. *)
Record SchemaDefaults := {
  default_penaltyRate : Q;
  default_penaltyType : PenaltyType.t
}.

Section LocalZone.
Variable tz : Z.
Variable schema : SchemaDefaults.

(** [newId] is the identifier the database generates for the new row.
    The nested gold-item rows are not kept in the world. *)
Definition createLoan (userId : string) (loanData : CreateLoanRequest.t)
    (newId : string) : M (Response.t Loan.t) :=
  let* customer := prisma.customer_exists (CreateLoanRequest.customerId loanData) in
  if negb customer then ret (Response.mk 404 false "Customer not found" None)
  else
    let goldItems := default [] (CreateLoanRequest.goldItems loanData) in
    let hasGoldItems := (0 <? length goldItems)%nat in
    let totalGoldWeight :=
      if hasGoldItems
      then fold_left (fun sum item => (sum + GoldItem.weight item)%Q) goldItems 0%Q
      else 0%Q in
    let totalGoldValue :=
      if hasGoldItems
      then fold_left (fun sum item =>
                        (sum + GoldItem.weight item * GoldItem.currentRate item)%Q)
                     goldItems 0%Q
      else 0%Q in
    let ltvRatio :=
      if negb (Qle_bool totalGoldValue 0)
      then helpers.calculateLTV (CreateLoanRequest.principalAmount loanData) totalGoldValue
      else 0%Q in
    let emiAmount :=
      helpers.calculateEMI (CreateLoanRequest.principalAmount loanData)
                           (CreateLoanRequest.interestRate loanData)
                           (CreateLoanRequest.tenure loanData) in
    let* loanNumber := helpers.generateLoanNumber tz in
    let* maturityDate := new_Date in
    let maturityDate :=
      setMonth tz maturityDate
               (getMonth tz maturityDate + CreateLoanRequest.tenure loanData)%Z in
    let* loan :=
      prisma.loan_create
        {| Loan.id := newId;
           Loan.loanNumber := loanNumber;
           Loan.customerId := CreateLoanRequest.customerId loanData;
           Loan.principalAmount := CreateLoanRequest.principalAmount loanData;
           Loan.interestRate := CreateLoanRequest.interestRate loanData;
           Loan.tenure := CreateLoanRequest.tenure loanData;
           Loan.emiAmount := Some emiAmount;
           Loan.outstandingBalance := CreateLoanRequest.principalAmount loanData;
           Loan.totalAmountPaid := 0%Q;
           Loan.totalGoldWeight := totalGoldWeight;
           Loan.totalGoldValue := totalGoldValue;
           Loan.ltvRatio := ltvRatio;
           Loan.maturityDate := Some maturityDate;
           Loan.purpose := CreateLoanRequest.purpose loanData;
           Loan.remarks := CreateLoanRequest.remarks loanData;
           Loan.createdById := userId;
           (* columns left to the schema *)
           Loan.status := LoanStatus.PENDING;
           Loan.approvalDate := None;
           Loan.disbursementDate := None;
           Loan.lastPaymentDate := None;
           Loan.approvedById := None;
           Loan.isOverdue := false;
           Loan.daysOverdue := 0%Z;
           Loan.overdueAmount := 0%Q;
           Loan.penaltyAmount := 0%Q;
           Loan.nextDueDate := None;
           Loan.overdueSince := None;
           Loan.penaltyRate := default_penaltyRate schema;
           Loan.penaltyType := default_penaltyType schema |} in
    ret (Response.mk 201 true "Loan application created successfully" (Some loan)).
End LocalZone.

(** [remarks || undefined]: remarks that are absent or empty leave the
    column as it is. *)
Definition approveLoan (id : string) (userId : string) (remarks : option string)
    : M (Response.t Loan.t) :=
  let* now := new_Date in
  let* loan :=
    prisma.loan_update id
      ([Loan.set_status LoanStatus.APPROVED;
        Loan.set_approvalDate (Some now);
        Loan.set_approvedById (Some userId)] ++
       match remarks with
       | Some (String c r) => [Loan.set_remarks (Some (String c r))]
       | _ => []
       end) in
  ret (Response.mk 200 true "Loan approved successfully" (Some loan)).

Definition rejectLoan (id : string) (remarks : string) : M (Response.t Loan.t) :=
  let* loan :=
    prisma.loan_update id [Loan.set_status LoanStatus.REJECTED; Loan.set_remarks (Some remarks)] in
  ret (Response.mk 200 true "Loan rejected successfully" (Some loan)).

Definition disburseLoan (id : string) (userId : string) : M (Response.t Loan.t) :=
  let* now := new_Date in
  let* loan :=
    prisma.loan_update id
      [Loan.set_status LoanStatus.ACTIVE; Loan.set_disbursementDate (Some now)] in
  prisma.payment_create
    (Payment.mk id (Loan.principalAmount loan) PaymentType.LOAN_DISBURSEMENT
                "Bank Transfer" None None None None None
                (Some "Loan amount disbursed to customer"%string) None userId
                PaymentStatus.COMPLETED) ;;
  ret (Response.mk 200 true "Loan disbursed successfully" (Some loan)).
End loans.

(** *** The overdue job: the cron callback and the manual trigger *)

Module overdueJob.
Section LocalZone.
Variable tz : Z.

(** The callback [startOverdueCheckJob] schedules for every midnight. *)
Definition startOverdueCheckJob_callback : M unit :=
  log (console_log "Running scheduled overdue check...") ;;
  try_catch
    (let* result := OverdueService.updateAllOverdueLoans tz in
     let* timestamp := new_Date in
     log (console_log "Overdue check completed:") ;;
     let* overdueLoans :=
       OverdueService.getOverdueLoans (OverdueFilters.mk (Some 90%Z) None None) in
     let* defaultedCount :=
       for_of overdueLoans
         (fun loan defaultedCount =>
            let* wasDefaulted := OverdueService.checkAndMarkDefaulted (Loan.id loan) 90 in
            ret (if wasDefaulted : bool then S defaultedCount else defaultedCount))
         O in
     if (0 <? defaultedCount)%nat
     then log (console_log ("Marked " +:+ pretty defaultedCount +:+ " loan(s) as DEFAULTED"))
     else ret tt)
    (fun error => log (console_error "Error in overdue check job:" error)).

Definition runOverdueCheckNow : M SweepResult.t :=
  log (console_log "Running immediate overdue check...") ;;
  try_catch
    (let* result := OverdueService.updateAllOverdueLoans tz in
     log (console_log "Overdue check completed:") ;;
     ret result)
    (fun error =>
       log (console_error "Error in overdue check:" error) ;;
       throw error).
End LocalZone.
End overdueJob.

(** ** Specification-side definitions and sample data *)


(** A loan as the specification's scenario has it: 100000 at 12% over 12
    months, disbursed on 2024-01-17, penalty 24% per annum. *)
Definition scenarioLoan : Loan.t :=
  {| Loan.id := "loan-1";
     Loan.loanNumber := "GL240115001";
     Loan.customerId := "customer-1";
     Loan.principalAmount := 100000;
     Loan.interestRate := 12;
     Loan.tenure := 12;
     Loan.emiAmount := Some (888488 # 100);
     Loan.outstandingBalance := 100000;
     Loan.totalAmountPaid := 0;
     Loan.totalGoldWeight := 20;
     Loan.totalGoldValue := 125000;
     Loan.ltvRatio := 80;
     Loan.status := LoanStatus.ACTIVE;
     Loan.approvalDate := Some (JsDate.utc 2024 1 16 0 0);
     Loan.disbursementDate := Some (JsDate.utc 2024 1 17 0 0);
     Loan.maturityDate := Some (JsDate.utc 2025 1 17 0 0);
     Loan.lastPaymentDate := None;
     Loan.purpose := Some "Working capital"%string;
     Loan.remarks := None;
     Loan.createdById := "user-1";
     Loan.approvedById := Some "user-1"%string;
     Loan.isOverdue := false;
     Loan.daysOverdue := 0;
     Loan.overdueAmount := 0;
     Loan.penaltyAmount := 0;
     Loan.nextDueDate := None;
     Loan.overdueSince := None;
     Loan.penaltyRate := 24;
     Loan.penaltyType := PenaltyType.PERCENTAGE |}.


Definition withPenalty (rate : Q) (ty : PenaltyType.t) (l : Loan.t) : Loan.t :=
  Loan.mk (Loan.id l) (Loan.loanNumber l) (Loan.customerId l) (Loan.principalAmount l)
    (Loan.interestRate l) (Loan.tenure l) (Loan.emiAmount l) (Loan.outstandingBalance l)
    (Loan.totalAmountPaid l) (Loan.totalGoldWeight l) (Loan.totalGoldValue l)
    (Loan.ltvRatio l) (Loan.status l) (Loan.approvalDate l) (Loan.disbursementDate l)
    (Loan.maturityDate l) (Loan.lastPaymentDate l) (Loan.purpose l) (Loan.remarks l)
    (Loan.createdById l) (Loan.approvedById l) (Loan.isOverdue l) (Loan.daysOverdue l)
    (Loan.overdueAmount l) (Loan.penaltyAmount l) (Loan.nextDueDate l)
    (Loan.overdueSince l) rate ty.

(** The scenario loan after its first instalment, paid on 2024-02-17. *)
Definition paidLoan : Loan.t :=
  Loan.update scenarioLoan
    [ Loan.set_totalAmountPaid (888488 # 100);
      Loan.set_outstandingBalance (9111512 # 100);
      Loan.set_lastPaymentDate (Some (JsDate.utc 2024 2 17 0 0)) ].

(** A world holding the given loans, whose clock stands at one instant. *)
Definition worldAt (now : Z) (rows : list Loan.t) : World :=
  {| loans := list_to_map (map (fun l => (Loan.id l, l)) rows);
     payments := [];
     customers := ∅;
     console := [];
     clock := fun _ => now;
     ticks := 0 |}.

(** The next due date as the specification words it: calendar-month
    addition and re-pinning of the day-of-month are the runtime's [setMonth]
    and [setDate]; [now] is the instant the computation reads. *)
Abbreviation addCalendarMonths tz d months :=
  (JsDate.setMonth tz d (JsDate.getMonth tz d + months)%Z) (only parsing).

Definition NextDueDate_spec (tz : Z) (now : Z) (loan : Loan.t) : option Z :=
  match Loan.disbursementDate loan with
  | None => None
  | Some disbursed =>
      let dueDay := JsDate.getDate tz disbursed in
      match Loan.lastPaymentDate loan with
      | Some paid => Some (JsDate.setDate tz (addCalendarMonths tz paid 1) dueDay)
      | None =>
          let first := addCalendarMonths tz disbursed 1 in
          if (first <? now)%Z then
            let elapsed := ((now - disbursed) / 2630016000)%Z in
            Some (JsDate.setDate tz (addCalendarMonths tz disbursed (elapsed + 1)) dueDay)
          else Some first
      end
  end.

(** The scenario loan, never paid, disbursed on 2023-12-15 at 10:00 UTC. *)
Definition decemberLoan : Loan.t :=
  Loan.update scenarioLoan [ Loan.set_disbursementDate (Some (JsDate.utc 2023 12 15 10 0)) ].

(** An application filed on 2024-01-01 at 09:00 UTC (the three clock
    readings [POST /api/loans] takes) and disbursed on 2024-02-15. *)
Definition applicationRequest : CreateLoanRequest.t :=
  {| CreateLoanRequest.customerId := "customer-1";
     CreateLoanRequest.principalAmount := 100000;
     CreateLoanRequest.interestRate := 12;
     CreateLoanRequest.tenure := 12;
     CreateLoanRequest.goldItems := None;
     CreateLoanRequest.purpose := Some "Working capital"%string;
     CreateLoanRequest.remarks := None |}.

Definition applicationWorld : World :=
  {| loans := ∅;
     payments := [];
     customers := {[ "customer-1"%string ]};
     console := [];
     clock := fun k => if (k <? 3)%nat then JsDate.utc 2024 1 1 9 0
                       else JsDate.utc 2024 2 15 9 0;
     ticks := 0 |}.

Definition sampleSchema : loans.SchemaDefaults :=
  {| loans.default_penaltyRate := 24; loans.default_penaltyType := PenaltyType.PERCENTAGE |}.

(** Two worlds that differ at most in how far the clock has been read. *)
Definition onlyClockRead (w w' : World) : Prop :=
  loans w' = loans w /\ payments w' = payments w /\ customers w' = customers w /\
  console w' = console w /\ clock w' = clock w.

(** The columns outside the overdue snapshot. *)
Definition sameOutsideOverdueSnapshot (l l' : Loan.t) : Prop :=
  Loan.id l' = Loan.id l /\
  Loan.loanNumber l' = Loan.loanNumber l /\
  Loan.customerId l' = Loan.customerId l /\
  Loan.principalAmount l' = Loan.principalAmount l /\
  Loan.interestRate l' = Loan.interestRate l /\
  Loan.tenure l' = Loan.tenure l /\
  Loan.emiAmount l' = Loan.emiAmount l /\
  Loan.outstandingBalance l' = Loan.outstandingBalance l /\
  Loan.totalAmountPaid l' = Loan.totalAmountPaid l /\
  Loan.totalGoldWeight l' = Loan.totalGoldWeight l /\
  Loan.totalGoldValue l' = Loan.totalGoldValue l /\
  Loan.ltvRatio l' = Loan.ltvRatio l /\
  Loan.status l' = Loan.status l /\
  Loan.approvalDate l' = Loan.approvalDate l /\
  Loan.disbursementDate l' = Loan.disbursementDate l /\
  Loan.maturityDate l' = Loan.maturityDate l /\
  Loan.lastPaymentDate l' = Loan.lastPaymentDate l /\
  Loan.purpose l' = Loan.purpose l /\
  Loan.remarks l' = Loan.remarks l /\
  Loan.createdById l' = Loan.createdById l /\
  Loan.approvedById l' = Loan.approvedById l /\
  Loan.penaltyRate l' = Loan.penaltyRate l /\
  Loan.penaltyType l' = Loan.penaltyType l.

(** What an overdue refresh writes: [snapshot] is the row the status [r] was
    computed from, [stored] the row the update met, [stamp] the clock reading a
    transition would be stamped with. *)
Definition overdueSnapshotWritten (snapshot stored : Loan.t)
    (r : OverdueCalculationResult.t) (stamp : Z) (l' : Loan.t) : Prop :=
  Loan.isOverdue l' = OverdueCalculationResult.isOverdue r /\
  Loan.daysOverdue l' = OverdueCalculationResult.daysOverdue r /\
  Loan.overdueAmount l' = OverdueCalculationResult.overdueAmount r /\
  Loan.penaltyAmount l' = OverdueCalculationResult.penaltyAmount r /\
  Loan.nextDueDate l' = OverdueCalculationResult.nextDueDate r /\
  (Loan.isOverdue snapshot = false -> OverdueCalculationResult.isOverdue r = true ->
     Loan.overdueSince l' = Some stamp) /\
  (Loan.isOverdue snapshot = true \/ OverdueCalculationResult.isOverdue r = false ->
     Loan.overdueSince l' = Loan.overdueSince snapshot) /\
  sameOutsideOverdueSnapshot stored l'.

(** The row an overdue refresh leaves. *)
Definition overdueRefreshed (snapshot stored : Loan.t)
    (r : OverdueCalculationResult.t) (stamp : Z) : Loan.t :=
  Loan.update stored
    [ Loan.set_isOverdue (OverdueCalculationResult.isOverdue r);
      Loan.set_daysOverdue (OverdueCalculationResult.daysOverdue r);
      Loan.set_overdueAmount (OverdueCalculationResult.overdueAmount r);
      Loan.set_penaltyAmount (OverdueCalculationResult.penaltyAmount r);
      Loan.set_nextDueDate (OverdueCalculationResult.nextDueDate r);
      Loan.set_overdueSince
        (if OverdueCalculationResult.isOverdue r && negb (Loan.isOverdue snapshot)
         then Some stamp else Loan.overdueSince snapshot) ].

(** The scenario loan found overdue in March: its February instalment was
    paid, the March one was not, and the sweep of 2024-04-01 recorded it. *)
Definition lapsedLoan : Loan.t :=
  Loan.update paidLoan
    [ Loan.set_isOverdue true;
      Loan.set_daysOverdue 15;
      Loan.set_overdueAmount (888488 # 100);
      Loan.set_penaltyAmount (87632 # 1000);
      Loan.set_nextDueDate (Some (JsDate.utc 2024 3 17 0 0));
      Loan.set_overdueSince (Some (JsDate.utc 2024 4 1 0 0)) ].

(** The same loan once the instalment has been paid, on 2024-04-02. *)
Definition caughtUpLoan : Loan.t :=
  Loan.update lapsedLoan
    [ Loan.set_totalAmountPaid (1776976 # 100);
      Loan.set_outstandingBalance (8223024 # 100);
      Loan.set_lastPaymentDate (Some (JsDate.utc 2024 4 2 10 0)) ].

(** The row [POST /api/payments] leaves after applying [amount] at [paidAt],
    and the payment row it creates, with the receipt stamped at [stamp]. *)
Definition paymentApplied (l : Loan.t) (amount : Q) (paidAt : Z) : Loan.t :=
  Loan.update l
    [ Loan.set_totalAmountPaid (Loan.totalAmountPaid l + amount)%Q;
      Loan.set_outstandingBalance (Qmax 0 (Loan.outstandingBalance l - amount))%Q;
      Loan.set_lastPaymentDate (Some paidAt);
      Loan.set_status
        (if Qle_bool (Loan.outstandingBalance l - amount) 0 then LoanStatus.COMPLETED
         else Loan.status l) ].

Definition paymentRow (userId : string) (paymentData : CreatePaymentRequest.t)
    (stamp : Z) : Payment.t :=
  Payment.mk (CreatePaymentRequest.loanId paymentData)
    (CreatePaymentRequest.amount paymentData)
    (CreatePaymentRequest.paymentType paymentData)
    (CreatePaymentRequest.paymentMethod paymentData)
    (CreatePaymentRequest.transactionId paymentData)
    (CreatePaymentRequest.dueDate paymentData)
    (CreatePaymentRequest.principalAmount paymentData)
    (CreatePaymentRequest.interestAmount paymentData)
    (CreatePaymentRequest.penaltyAmount paymentData)
    (CreatePaymentRequest.notes paymentData)
    (Some ("RCP" +:+ pretty stamp)) userId PaymentStatus.COMPLETED.

(** A cash payment with no breakdown. *)
Definition payment (loanId : string) (amount : Q) (ty : PaymentType.t)
    : CreatePaymentRequest.t :=
  CreatePaymentRequest.mk loanId amount ty "CASH" None None None None None None.


(** The scenario loan after its application was turned down. *)
Definition rejectedLoan : Loan.t :=
  Loan.update scenarioLoan [ Loan.set_status LoanStatus.REJECTED ].


(** A row some key of the loan table holds; a table whose rows sit under
    their own ids, as in the database. *)
Definition stored (w : World) (l : Loan.t) : Prop := exists k, loans w !! k = Some l.

Definition wellKeyed (w : World) : Prop :=
  forall k l, loans w !! k = Some l -> Loan.id l = k.

(** The order and the conditions of [getOverdueLoans]; a filter that is
    absent or 0 does not apply. *)
Definition byDaysOverdueDesc (a b : Loan.t) : Prop :=
  (Loan.daysOverdue b <= Loan.daysOverdue a)%Z.

Definition passesFilters (filters : OverdueFilters.t) (l : Loan.t) : Prop :=
  (forall n, OverdueFilters.minDaysOverdue filters = Some n -> n <> 0%Z ->
     (n <= Loan.daysOverdue l)%Z) /\
  (forall n, OverdueFilters.maxDaysOverdue filters = Some n -> n <> 0%Z ->
     (Loan.daysOverdue l <= n)%Z) /\
  (forall a, OverdueFilters.minAmount filters = Some a -> ~ (a == 0)%Q ->
     (a <= Loan.overdueAmount l)%Q).

(** ** [src/utils/helpers.ts]: pagination *)

Module Pagination.
Record t := mk {
  page : Z;
  limit : Z;
  total : Z;
  totalPages : Z;
  hasNext : bool;
  hasPrevious : bool
}.
End Pagination.

Module paging.
Local Open Scope Z_scope.

(** [Math.ceil(a / b)] for integers [a] and [b], [b] not 0. *)
Definition Math_ceil_div (a b : Z) : Z := - ((- a) / b).

Definition calculatePagination (page limit total : Z) : Pagination.t :=
  let totalPages := Math_ceil_div total limit in
  let hasNext := page <? totalPages in
  let hasPrevious := 1 <? page in
  Pagination.mk page limit total totalPages hasNext hasPrevious.

(** [x || d] for a number [x]: NaN (here [None]) and 0 are falsy. *)
Definition or_default (x : option Z) (d : Z) : Z :=
  match x with
  | Some n => if n =? 0 then d else n
  | None => d
  end.

(** [getPaginationParams], given what [parseInt] made of [query.page] and
    [query.limit] ([None] for NaN, as for a missing parameter). *)
Definition getPaginationParams (page limit : option Z) : Z * Z :=
  let page := Z.max 1 (or_default page 1) in
  let limit := Z.min 100 (Z.max 1 (or_default limit 10)) in
  (page, limit).
End paging.

(** ** [src/services/overdueService.ts]: statistics *)

Module OverdueStatistics.
Record t := mk {
  totalOverdueLoans : nat;
  totalOverdueAmount : Q;
  totalPenalties : Q;
  averageDaysOverdue : Z;
  lessThan30Days : nat;
  from30To60Days : nat;
  from60To90Days : nat;
  moreThan90Days : nat
}.
End OverdueStatistics.

Module statistics.
(** [prisma.loan.count] and [prisma.loan.aggregate] with [_sum] / [_avg]: the
    aggregate of no row is [null]. *)
Definition loan_count (where_ : Loan.t -> bool) : M nat :=
  let* rows := prisma.loan_findMany where_ in ret (length rows).

Definition loan_sum (field : Loan.t -> Q) (where_ : Loan.t -> bool) : M (option Q) :=
  let* rows := prisma.loan_findMany where_ in
  ret (match rows with
       | [] => None
       | _ => Some (fold_left (fun sum l => (sum + field l)%Q) rows 0%Q)
       end).

Definition loan_avg (field : Loan.t -> Z) (where_ : Loan.t -> bool) : M (option Q) :=
  let* rows := prisma.loan_findMany where_ in
  ret (match rows with
       | [] => None
       | _ => Some (inject_Z (fold_left (fun sum l => (sum + field l)%Z) rows 0%Z)
                    / inject_Z (Z.of_nat (length rows)))%Q
       end).

Definition overdueActive (l : Loan.t) : bool :=
  Loan.isOverdue l && LoanStatus.eqb (Loan.status l) LoanStatus.ACTIVE.

Definition getOverdueStatistics : M OverdueStatistics.t :=
  let* totalOverdue := loan_count overdueActive in
  let* totalOverdueAmount := loan_sum Loan.overdueAmount overdueActive in
  let* totalPenalties := loan_sum Loan.penaltyAmount overdueActive in
  let* avgDaysOverdue := loan_avg Loan.daysOverdue overdueActive in
  let* bucket0 :=
    loan_count (fun l => overdueActive l &&
                         ((0 <=? Loan.daysOverdue l) && (Loan.daysOverdue l <? 30))%Z) in
  let* bucket1 :=
    loan_count (fun l => overdueActive l &&
                         ((30 <=? Loan.daysOverdue l) && (Loan.daysOverdue l <? 60))%Z) in
  let* bucket2 :=
    loan_count (fun l => overdueActive l &&
                         ((60 <=? Loan.daysOverdue l) && (Loan.daysOverdue l <? 90))%Z) in
  let* bucket3 :=
    loan_count (fun l => overdueActive l && (90 <=? Loan.daysOverdue l)%Z) in
  ret {| OverdueStatistics.totalOverdueLoans := totalOverdue;
         OverdueStatistics.totalOverdueAmount := default 0%Q totalOverdueAmount;
         OverdueStatistics.totalPenalties := default 0%Q totalPenalties;
         OverdueStatistics.averageDaysOverdue :=
           Qfloor (default 0%Q avgDaysOverdue + (1 # 2));
         OverdueStatistics.lessThan30Days := bucket0;
         OverdueStatistics.from30To60Days := bucket1;
         OverdueStatistics.from60To90Days := bucket2;
         OverdueStatistics.moreThan90Days := bucket3 |}.
End statistics.


(** *** The overdue router: [POST /update/:loanId], [POST /check-default/:loanId] *)

Module overdueRoutes.
Section LocalZone.
Variable tz : Z.

Definition updateAll : M (Response.t SweepResult.t) :=
  let* result := OverdueService.updateAllOverdueLoans tz in
  ret (Response.mk 200 true "Overdue status updated for all active loans" (Some result)).

Definition updateLoan (loanId : string) : M (Response.t Loan.t) :=
  let* loan := OverdueService.updateLoanOverdueStatus tz loanId in
  ret (Response.mk 200 true "Loan overdue status updated successfully" (Some loan)).
End LocalZone.

(** [data] is [{ wasMarkedDefaulted, thresholdDays }]. *)
Definition checkDefault (loanId : string) (thresholdDays : option Z)
    : M (Response.t (bool * Z)) :=
  let thresholdDays := default 90%Z thresholdDays in
  let* wasMarkedDefaulted := OverdueService.checkAndMarkDefaulted loanId thresholdDays in
  ret (Response.mk 200 true
         (if wasMarkedDefaulted
          then "Loan marked as DEFAULTED due to extended overdue period"
          else "Loan does not meet criteria for default status")
         (Some (wasMarkedDefaulted, thresholdDays))).
End overdueRoutes.

(** *** The middleware: [asyncHandler] and [errorHandler] *)

Module ErrorResponse.
(** [res.status(code).json({ success: false, message, error })] *)
Record t := mk {
  statusCode : Z;
  message : string;
  error : string
}.
End ErrorResponse.

Module middleware.
(** Of the errors the handler tells apart, the modelled code raises two:
    Prisma's P2025 and a plain [Error], which falls to the default branch.
    [development] is [process.env.NODE_ENV === 'development']. *)
Definition errorHandler (development : bool) (error : Exn) : M ErrorResponse.t :=
  log (console_error "Error:" error) ;;
  match error with
  | RecordNotFound _ =>
      ret (ErrorResponse.mk 404 "Record not found" "The requested record does not exist")
  | Error message =>
      ret (ErrorResponse.mk 500 "Internal server error"
             (if development then message else "Something went wrong"))
  end.

(** A route wrapped in [asyncHandler] under [app.use(errorHandler)]: what the
    handler throws is passed to [next] and answered by [errorHandler]. *)
Definition asyncHandler {A} (development : bool) (fn : M (Response.t A))
    : M (Response.t A + ErrorResponse.t) :=
  try_catch (let* response := fn in ret (inl response))
            (fun error => let* response := errorHandler development error in
                          ret (inr response)).
End middleware.

(** *** The balance repair script: [updateLoanBalances] *)

Module migration.
(** [x.toFixed(2)]: the sign, then the magnitude rounded to hundredths,
    a tie going up. *)
Definition toFixed2 (x : Q) : string :=
  let n := Qfloor (Qabs x * 100 + (1 # 2)) in
  ((if Qle_bool 0 x then "" else "-") +:+
   pretty (n / 100)%Z +:+ "." +:+ helpers.padStart2 (pretty (n mod 100)%Z))%string.

(** The payments the script counts for a loan.  The console lines are
    given by their text, without the pictograph that opens each. *)
Definition counted (loanId : string) (payment : Payment.t) : bool :=
  bool_decide (Payment.loanId payment = loanId) &&
  match Payment.status payment with PaymentStatus.COMPLETED => true | _ => false end &&
  match Payment.paymentType payment with
  | PaymentType.EMI_PAYMENT | PaymentType.PARTIAL_PAYMENT | PaymentType.LOAN_CLOSURE => true
  | _ => false
  end.

Definition updateLoanBalances_body (loan : Loan.t) (_ : unit) : M unit :=
  let* payments := prisma.payment_findMany (counted (Loan.id loan)) in
  let totalPaid :=
    fold_left (fun sum payment => (sum + Payment.amount payment)%Q) payments 0%Q in
  let outstanding := (Loan.principalAmount loan - totalPaid)%Q in
  prisma.loan_update (Loan.id loan)
    [ Loan.set_outstandingBalance (Qmax 0 outstanding);
      Loan.set_totalAmountPaid totalPaid ] ;;
  log (console_log ("Updated " +:+ Loan.loanNumber loan +:+
                    ": Outstanding = ₹" +:+ toFixed2 outstanding +:+
                    ", Paid = ₹" +:+ toFixed2 totalPaid)).

Definition updateLoanBalances : M unit :=
  log (console_log "Updating outstanding balances for existing loans...") ;;
  let* loans := prisma.loan_findMany (fun _ => true) in
  log (console_log ("Found " +:+ pretty (length loans) +:+ " loans to update")) ;;
  for_of loans updateLoanBalances_body tt ;;
  log (console_log "All loan balances updated successfully!").
End migration.

(** What the repair script computes for the loan [loanId] from the payment
    rows of [w], and the books being in step with the payment rows. *)
Definition paidTotal (w : World) (loanId : string) : Q :=
  fold_left (fun sum payment => (sum + Payment.amount payment)%Q)
            (filter (fun p => migration.counted loanId p = true) (payments w)) 0%Q.

Definition repaired (w : World) (l : Loan.t) : Loan.t :=
  Loan.update l
    [ Loan.set_outstandingBalance (Qmax 0 (Loan.principalAmount l - paidTotal w (Loan.id l)));
      Loan.set_totalAmountPaid (paidTotal w (Loan.id l)) ].

Definition reconciled (w : World) : Prop :=
  forall k l, loans w !! k = Some l ->
    (Loan.totalAmountPaid l == paidTotal w k)%Q /\
    (Loan.outstandingBalance l == Qmax 0 (Loan.principalAmount l - paidTotal w k))%Q.


(** *** The payment schedule: [GET /api/payments/loan/:loanId/schedule] *)

Module ScheduleStatus.
Inductive t := PAID | OVERDUE | PENDING.
End ScheduleStatus.

Module ScheduleRow.
Record t := mk {
  month : Z;
  dueDate : Z;
  emiAmount : Q;
  principalAmount : Q;
  interestAmount : Q;
  remainingPrincipal : Q;
  status : ScheduleStatus.t;
  paymentId : option string;
  paidAmount : Q;
  paidDate : option Z
}.
End ScheduleRow.

Module PaymentSchedule.
(** [data]: the [loan] columns echoed, the totals and the rows. *)
Record t := mk {
  principalAmount : Q;
  interestRate : Q;
  tenure : Z;
  emiAmount : option Q;
  totalPaid : Q;
  remainingAmount : Q;
  schedule : list ScheduleRow.t
}.
End PaymentSchedule.

Module scheduleRoute.
Import JsDate.
Section Columns.
Variable tz : Z.

(** The world keeps a payment row as the handlers write it.  The columns
    the database fills in, [id] and [paymentDate], are read through these. *)
Variable paymentId : Payment.t -> string.
Variable paymentDate : Payment.t -> Z.

(** [orderBy: { paymentDate: 'asc' }] *)
Fixpoint insert_asc (p : Payment.t) (ps : list Payment.t) : list Payment.t :=
  match ps with
  | [] => [p]
  | x :: rest =>
      if (paymentDate p <? paymentDate x)%Z then p :: x :: rest
      else x :: insert_asc p rest
  end.
Definition orderBy_paymentDate_asc (ps : list Payment.t) : list Payment.t :=
  fold_right insert_asc [] ps.

(** The [for] loop from [month] on, [fuel] months being left up to the
    tenure; [break] ends it once nothing remains. *)
Fixpoint schedule_from (disbursementDate : Z) (monthlyRate emiAmount : Q)
    (payments : list Payment.t) (fuel : nat) (month : Z) (remainingPrincipal : Q)
    : M (list ScheduleRow.t) :=
  match fuel with
  | O => ret []
  | S fuel =>
      let dueDate := setMonth tz disbursementDate (getMonth tz disbursementDate + month)%Z in
      let interestAmount := (remainingPrincipal * monthlyRate)%Q in
      let principalAmount := Qmin (emiAmount - interestAmount) remainingPrincipal in
      let monthPayment :=
        List.find (fun p =>
                     (getMonth tz (paymentDate p) =? getMonth tz dueDate)%Z &&
                     (getFullYear tz (paymentDate p) =? getFullYear tz dueDate)%Z)
                  payments in
      let* status :=
        match monthPayment with
        | Some _ => ret ScheduleStatus.PAID
        | None =>
            let* now := new_Date in
            ret (if (dueDate <? now)%Z then ScheduleStatus.OVERDUE
                 else ScheduleStatus.PENDING)
        end in
      let row :=
        {| ScheduleRow.month := month;
           ScheduleRow.dueDate := dueDate;
           ScheduleRow.emiAmount := emiAmount;
           ScheduleRow.principalAmount :=
             (helpers.Math_round (principalAmount * 100) / 100)%Q;
           ScheduleRow.interestAmount :=
             (helpers.Math_round (interestAmount * 100) / 100)%Q;
           ScheduleRow.remainingPrincipal :=
             (helpers.Math_round ((remainingPrincipal - principalAmount) * 100) / 100)%Q;
           ScheduleRow.status := status;
           ScheduleRow.paymentId := paymentId <$> monthPayment;
           ScheduleRow.paidAmount :=
             match monthPayment with Some p => Payment.amount p | None => 0%Q end;
           ScheduleRow.paidDate := paymentDate <$> monthPayment |} in
      let remainingPrincipal := (remainingPrincipal - principalAmount)%Q in
      if Qle_bool remainingPrincipal 0 then ret [row]
      else
        let* rest :=
          schedule_from disbursementDate monthlyRate emiAmount payments fuel
                        (month + 1)%Z remainingPrincipal in
        ret (row :: rest)
  end.

Definition paymentSchedule (loanId : string) : M (Response.t PaymentSchedule.t) :=
  let* loan := prisma.loan_findUnique loanId in
  match loan with
  | None => ret (Response.mk 404 false "Loan not found or not disbursed" None)
  | Some loan =>
      match Loan.disbursementDate loan with
      | None => ret (Response.mk 404 false "Loan not found or not disbursed" None)
      | Some disbursementDate =>
          let* payments :=
            prisma.payment_findMany
              (fun payment =>
                 bool_decide (Payment.loanId payment = loanId) &&
                 match Payment.status payment with
                 | PaymentStatus.COMPLETED => true
                 | _ => false
                 end &&
                 match Payment.paymentType payment with
                 | PaymentType.EMI_PAYMENT | PaymentType.PARTIAL_PAYMENT
                 | PaymentType.LOAN_CLOSURE => true
                 | _ => false
                 end) in
          let payments := orderBy_paymentDate_asc payments in
          let monthlyRate := (Loan.interestRate loan / (12 * 100))%Q in
          let emiAmount := default 0%Q (Loan.emiAmount loan) in
          let totalPaid :=
            fold_left (fun totalPaid payment => (totalPaid + Payment.amount payment)%Q)
                      payments 0%Q in
          let* schedule :=
            schedule_from disbursementDate monthlyRate emiAmount payments
                          (Z.to_nat (Loan.tenure loan)) 1 (Loan.principalAmount loan) in
          ret (Response.mk 200 true "Payment schedule retrieved successfully"
                 (Some {| PaymentSchedule.principalAmount := Loan.principalAmount loan;
                          PaymentSchedule.interestRate := Loan.interestRate loan;
                          PaymentSchedule.tenure := Loan.tenure loan;
                          PaymentSchedule.emiAmount := Loan.emiAmount loan;
                          PaymentSchedule.totalPaid := totalPaid;
                          PaymentSchedule.remainingAmount :=
                            Qmax 0 (Loan.principalAmount loan - totalPaid);
                          PaymentSchedule.schedule := schedule |}))
      end
  end.
End Columns.
End scheduleRoute.

(** * Properties *)

(** ** Running [async] code *)

Section Running.
Context {A B : Type}.

Lemma bind_returned (m : M A) (k : A -> M B) (w w' : World) (a : A) :
  m w = (Returned a, w') -> bind m k w = k a w'.
Proof. unfold bind. now intros ->. Qed.


Lemma bind_new_Date (k : Z -> M B) (w : World) :
  bind new_Date k w = k (clock w (ticks w)) (snd (new_Date w)).
Proof. reflexivity. Qed.

Lemma bind_ret (a : A) (k : A -> M B) (w : World) : bind (ret a) k w = k a w.
Proof. reflexivity. Qed.

Lemma try_catch_returned (m : M A) (h : Exn -> M A) (w w' : World) (a : A) :
  m w = (Returned a, w') -> try_catch m h w = (Returned a, w').
Proof. unfold try_catch. now intros ->. Qed.

Lemma try_catch_thrown (m : M A) (h : Exn -> M A) (w w' : World) (e : Exn) :
  m w = (Thrown e, w') -> try_catch m h w = h e w'.
Proof. unfold try_catch. now intros ->. Qed.
End Running.

(** ** Loan terms: the EMI formula *)

Section LoanTerms.
Local Open Scope Q_scope.
Import helpers.






End LoanTerms.

(** ** Penalty accrual *)

Section Penalty.
Local Open Scope Q_scope.
Import OverdueService.

(** C3. With [daysOverdue > 0] the penalty is
    [overdueAmount * (penaltyRate / 100 / 365) * daysOverdue] under
    PERCENTAGE and [penaltyRate * daysOverdue], whatever the overdue
    amount, under FIXED; 10000 overdue for 30 days at 24% gives 197.26 to
    the cent; and [daysOverdue <= 0] gives 0. *)
Theorem calculatePenalty_formula (loan : Loan.t) (daysOverdue : Z) (overdueAmount : Q) :
  (0 < daysOverdue)%Z ->
  (Loan.penaltyType loan = PenaltyType.PERCENTAGE ->
     calculatePenalty loan daysOverdue overdueAmount ==
     overdueAmount * (Loan.penaltyRate loan / 100 / 365) * inject_Z daysOverdue) /\
  (Loan.penaltyType loan = PenaltyType.FIXED ->
     forall anyAmount,
       calculatePenalty loan daysOverdue anyAmount ==
       Loan.penaltyRate loan * inject_Z daysOverdue) /\
  (Loan.penaltyType loan = PenaltyType.PERCENTAGE -> Loan.penaltyRate loan == 24 ->
     Qabs (calculatePenalty loan 30 10000 - (19726 # 100)) < 1 # 200) /\
  (forall days anyAmount, (days <= 0)%Z -> calculatePenalty loan days anyAmount = 0).
Proof.
  intros Hd. unfold calculatePenalty.
  assert ((daysOverdue <=? 0)%Z = false) as -> by lia.
  repeat split.
  - intros ->. reflexivity.
  - intros -> anyAmount. reflexivity.
  - intros -> Hrate. cbn [Z.leb Z.compare]. rewrite Hrate. vm_compute. reflexivity.
  - intros days anyAmount Hle.
    assert ((days <=? 0)%Z = true) as -> by lia. reflexivity.
Qed.

Lemma calculatePenalty_formula_witness :
  calculatePenalty scenarioLoan 30 10000 == 10000 * (24 / 100 / 365) * inject_Z 30 /\
  Qabs (calculatePenalty scenarioLoan 30 10000 - (19726 # 100)) < 1 # 200.
Proof.
  destruct (calculatePenalty_formula scenarioLoan 30 10000) as (H1 & _ & H2 & _).
  - reflexivity.
  - split; [apply H1 | apply H2]; reflexivity.
Defined.
End Penalty.

(** ** The overdue computation *)

Section OverdueStatus.
Import OverdueService.
Variable tz : Z.

Lemma calculateNextDueDate_returns (loan : Loan.t) (w : World) :
  exists due w', calculateNextDueDate tz loan w = (Returned due, w').
Proof.
  unfold calculateNextDueDate, bind, new_Date, ret.
  destruct (Loan.disbursementDate loan) as [disbursed|]; [|eauto].
  destruct (Loan.lastPaymentDate loan) as [paid|]; [eauto|].
  destruct (_ <? _)%Z; eauto.
Qed.

(** C2. For an ACTIVE loan, with [now] the instant [calculateOverdueStatus]
    reads first and [due] the date [calculateNextDueDate] then returns: the
    result carries [due]; it is not overdue with all amounts 0 when [due] is
    none or [now <= due]; otherwise it is overdue, [daysOverdue] is the whole
    number of days in [now - due], and [overdueAmount] is the smaller of
    the EMI amount and the outstanding balance. *)
Theorem calculateOverdueStatus_active (loan : Loan.t) (w : World) :
  Loan.status loan = LoanStatus.ACTIVE ->
  let now := clock w (ticks w) in
  exists due r w',
    calculateNextDueDate tz loan (snd (new_Date w)) = (Returned due, w') /\
    calculateOverdueStatus tz loan w = (Returned r, w') /\
    OverdueCalculationResult.nextDueDate r = due /\
    (due = None \/ (exists d, due = Some d /\ (now <= d)%Z) ->
       OverdueCalculationResult.isOverdue r = false /\
       OverdueCalculationResult.daysOverdue r = 0%Z /\
       OverdueCalculationResult.overdueAmount r = 0%Q /\
       OverdueCalculationResult.penaltyAmount r = 0%Q) /\
    (forall d, due = Some d -> (d < now)%Z ->
       OverdueCalculationResult.isOverdue r = true /\
       OverdueCalculationResult.daysOverdue r = ((now - d) / 86400000)%Z /\
       (86400000 * OverdueCalculationResult.daysOverdue r <= now - d
          < 86400000 * (OverdueCalculationResult.daysOverdue r + 1))%Z /\
       OverdueCalculationResult.overdueAmount r =
         Qmin (default 0%Q (Loan.emiAmount loan)) (Loan.outstandingBalance loan) /\
       (OverdueCalculationResult.overdueAmount r <= default 0%Q (Loan.emiAmount loan))%Q /\
       (OverdueCalculationResult.overdueAmount r <= Loan.outstandingBalance loan)%Q /\
       OverdueCalculationResult.penaltyAmount r =
         calculatePenalty loan (OverdueCalculationResult.daysOverdue r)
                          (OverdueCalculationResult.overdueAmount r)).
Proof.
  intros Hactive now.
  destruct (calculateNextDueDate_returns loan (snd (new_Date w))) as (due & w' & Hdue).
  assert (calculateOverdueStatus tz loan w =
          match due with
          | Some d =>
              if (now <=? d)%Z then
                (Returned (OverdueCalculationResult.mk false 0 0%Q 0%Q due), w')
              else
                let days := ((now - d) / 86400000)%Z in
                let amount :=
                  Qmin (default 0%Q (Loan.emiAmount loan)) (Loan.outstandingBalance loan) in
                (Returned (OverdueCalculationResult.mk true days amount
                             (calculatePenalty loan days amount) due), w')
          | None => (Returned (OverdueCalculationResult.mk false 0 0%Q 0%Q due), w')
          end) as Hrun.
  { unfold calculateOverdueStatus. rewrite bind_new_Date, Hactive.
    cbn [LoanStatus.eqb negb]. rewrite (bind_returned _ _ _ _ _ Hdue).
    fold now. destruct due as [d|]; [|reflexivity].
    destruct (now <=? d)%Z; reflexivity. }
  exists due. destruct due as [d|]; [destruct (now <=? d)%Z eqn:Hcmp|];
    cbv zeta in Hrun; eexists; exists w';
    (split; [exact Hdue|]); (split; [exact Hrun|]); (split; [reflexivity|]); cbn.
  - split; [now intros _|]. intros d' [= <-] Hlt. lia.
  - split.
    { intros [[=]|(d' & [= <-] & Hle)]. lia. }
    intros d' [= <-] Hlt.
    repeat split; try reflexivity.
    + apply Z.mul_div_le. lia.
    + pose proof (Z.mul_succ_div_gt (now - d) 86400000 ltac:(lia)). lia.
    + apply Q.le_min_l.
    + apply Q.le_min_r.
  - split; [now intros _|]. intros d' [=].
Qed.


Lemma calculateOverdueStatus_returns (loan : Loan.t) (w : World) :
  exists r w', calculateOverdueStatus tz loan w = (Returned r, w') /\ onlyClockRead w w'.
Proof.
  unfold calculateOverdueStatus, calculateNextDueDate, bind, new_Date, ret, onlyClockRead.
  destruct (negb _); [cbn; eauto 10|].
  destruct (Loan.disbursementDate loan) as [disbursed|]; [|cbn; eauto 10].
  destruct (Loan.lastPaymentDate loan) as [paid|]; cbn.
  - destruct (_ <=? _)%Z; cbn; eauto 10.
  - destruct (_ <? _)%Z; cbn; destruct (_ <=? _)%Z; cbn; eauto 10.
Qed.

Lemma overdueRefreshed_written (snapshot stored : Loan.t)
    (r : OverdueCalculationResult.t) (stamp : Z) :
  overdueSnapshotWritten snapshot stored r stamp (overdueRefreshed snapshot stored r stamp).
Proof.
  unfold overdueSnapshotWritten, sameOutsideOverdueSnapshot, overdueRefreshed. cbn.
  repeat split.
  - intros -> ->. reflexivity.
  - intros [->| ->]; [now rewrite andb_false_r|reflexivity].
Qed.

(** One run of [updateLoanOverdueStatus] on a stored loan. *)
Lemma updateLoanOverdueStatus_run (loanId : string) (l : Loan.t) (w : World) :
  loans w !! loanId = Some l ->
  exists r w1 w',
    calculateOverdueStatus tz l w = (Returned r, w1) /\
    updateLoanOverdueStatus tz loanId w
      = (Returned (overdueRefreshed l l r (clock w1 (ticks w1))), w') /\
    loans w' = <[loanId := overdueRefreshed l l r (clock w1 (ticks w1))]> (loans w) /\
    payments w' = payments w /\ customers w' = customers w /\
    console w' = console w /\ clock w' = clock w.
Proof.
  intros Hl.
  destruct (calculateOverdueStatus_returns l w) as (r & w1 & Hr & Hl1 & Hp1 & Hc1 & Ho1 & Hk1).
  exists r, w1. unfold updateLoanOverdueStatus.
  rewrite (bind_returned _ _ w w (Some l)) by (unfold prisma.loan_findUnique; now rewrite Hl).
  rewrite (bind_returned _ _ _ _ _ Hr). unfold overdueRefreshed.
  destruct (OverdueCalculationResult.isOverdue r && negb (Loan.isOverdue l)).
  - unfold bind, new_Date, ret, prisma.loan_update. cbn [loans]. rewrite Hl1, Hl.
    eexists. split; [exact Hr|]. split; [reflexivity|]. cbn. auto.
  - unfold bind, ret, prisma.loan_update. rewrite Hl1, Hl.
    eexists. split; [exact Hr|]. split; [reflexivity|]. cbn. auto.
Qed.

(** One turn of the loop of [updateAllOverdueLoans], for a loan of the list
    whose row is still stored. *)
Lemma updateAllOverdueLoans_body_run (loan stored : Loan.t) (counts : nat * nat)
    (w : World) :
  loans w !! Loan.id loan = Some stored ->
  exists r w1 counts' w',
    calculateOverdueStatus tz loan w = (Returned r, w1) /\
    updateAllOverdueLoans_body tz loan counts w = (Returned counts', w') /\
    loans w' = <[Loan.id loan := overdueRefreshed loan stored r (clock w1 (ticks w1))]> (loans w) /\
    payments w' = payments w /\ customers w' = customers w /\
    console w' = console w /\ clock w' = clock w.
Proof.
  intros Hl.
  destruct (calculateOverdueStatus_returns loan w)
    as (r & w1 & Hr & Hl1 & Hp1 & Hc1 & Ho1 & Hk1).
  exists r, w1. unfold updateAllOverdueLoans_body. cbv zeta.
  rewrite (bind_returned _ _ _ _ _ Hr). unfold overdueRefreshed.
  destruct (OverdueCalculationResult.isOverdue r && negb (Loan.isOverdue loan)).
  - unfold bind, new_Date, ret, prisma.loan_update. cbn [loans]. rewrite Hl1, Hl.
    eexists _, _. split; [exact Hr|]. split; [reflexivity|]. cbn. auto.
  - unfold bind, ret, prisma.loan_update. rewrite Hl1, Hl.
    eexists _, _. split; [exact Hr|]. split; [reflexivity|]. cbn. auto.
Qed.
End OverdueStatus.

Lemma calculateOverdueStatus_active_witness :
  exists r w',
    OverdueService.calculateOverdueStatus 0 paidLoan
      (worldAt (JsDate.utc 2024 4 1 12 0) [paidLoan]) = (Returned r, w') /\
    OverdueCalculationResult.isOverdue r = true /\
    OverdueCalculationResult.daysOverdue r = 15%Z /\
    OverdueCalculationResult.overdueAmount r = (888488 # 100)%Q.
Proof.
  destruct (calculateOverdueStatus_active 0 paidLoan
              (worldAt (JsDate.utc 2024 4 1 12 0) [paidLoan]) eq_refl)
    as (due & r & w' & Hdue & Hrun & _ & _ & Hover).
  vm_compute in Hdue. injection Hdue as <- _.
  destruct (Hover _ eq_refl) as (H1 & H2 & _ & H3 & _); [vm_compute; reflexivity|].
  exists r, w'. split; [exact Hrun|]. split; [exact H1|].
  split; [rewrite H2; vm_compute; reflexivity|].
  rewrite H3. vm_compute. reflexivity.
Defined.

(** ** The next due date *)

Section NextDueDate.
Import OverdueService JsDate.
Variable tz : Z.

(** Where the code and the specification's wording agree: no disbursement
    date, a last payment, or a first due date that has not passed. *)
Lemma calculateNextDueDate_agrees (loan : Loan.t) (w : World) :
  (Loan.disbursementDate loan = None \/
   is_Some (Loan.lastPaymentDate loan) \/
   (exists disbursed, Loan.disbursementDate loan = Some disbursed /\
                      (clock w (ticks w) <= addCalendarMonths tz disbursed 1)%Z)) ->
  fst (calculateNextDueDate tz loan w)
    = Returned (NextDueDate_spec tz (clock w (ticks w)) loan).
Proof.
  intros H.
  destruct (Loan.disbursementDate loan) as [disbursed|] eqn:Hd.
  2:{ unfold calculateNextDueDate, NextDueDate_spec. now rewrite Hd. }
  destruct (Loan.lastPaymentDate loan) as [paid|] eqn:Hp.
  { unfold calculateNextDueDate, NextDueDate_spec. now rewrite Hd, Hp. }
  destruct H as [[=]|[[? [=]]|(d & [= <-] & Hle)]].
  apply Z.ltb_ge in Hle.
  assert (NextDueDate_spec tz (clock w (ticks w)) loan
          = Some (addCalendarMonths tz disbursed 1)) as ->.
  { unfold NextDueDate_spec. rewrite Hd, Hp. cbv zeta. now rewrite Hle. }
  unfold calculateNextDueDate. rewrite Hd, Hp, bind_new_Date. cbv zeta.
  rewrite Hle. reflexivity.
Qed.

Lemma TimeWithinDay_setMonth (d month : Z) :
  TimeWithinDay (LocalTime tz (setMonth tz d month)) = TimeWithinDay (LocalTime tz d).
Proof.
  unfold setMonth, LocalTime, UTC, MakeDate, TimeWithinDay.
  generalize (MakeDay (YearFromTime (d + tz)) month (DateFromTime (d + tz))). intros day.
  replace (day * msPerDay + (d + tz) mod msPerDay - tz + tz)%Z
    with ((d + tz) mod msPerDay + day * msPerDay)%Z by lia.
  rewrite Z_mod_plus_full. apply Z.mod_mod. discriminate.
Qed.

Lemma setMonth_same_fields (d d' month : Z) :
  getFullYear tz d' = getFullYear tz d ->
  getDate tz d' = getDate tz d ->
  TimeWithinDay (LocalTime tz d') = TimeWithinDay (LocalTime tz d) ->
  setMonth tz d' month = setMonth tz d month.
Proof.
  unfold getFullYear, getDate, setMonth. cbv zeta. intros -> -> ->. reflexivity.
Qed.

(** A never-paid loan whose first due date has passed: the code and the
    wording still agree when adding one month to the disbursement date
    stays in the same year and keeps the day of the month. *)
Lemma calculateNextDueDate_agrees_within_year (loan : Loan.t) (w : World) (disbursed : Z) :
  Loan.disbursementDate loan = Some disbursed ->
  Loan.lastPaymentDate loan = None ->
  getFullYear tz (addCalendarMonths tz disbursed 1) = getFullYear tz disbursed ->
  getDate tz (addCalendarMonths tz disbursed 1) = getDate tz disbursed ->
  fst (calculateNextDueDate tz loan w)
    = Returned (NextDueDate_spec tz (clock w (ticks w)) loan).
Proof.
  intros Hd Hp Hyear Hday.
  pose proof (setMonth_same_fields disbursed _
                (getMonth tz disbursed + ((clock w (ticks w) - disbursed) / 2630016000 + 1))
                Hyear Hday (TimeWithinDay_setMonth _ _)) as Hsame.
  unfold NextDueDate_spec. rewrite Hd, Hp. cbv zeta.
  unfold calculateNextDueDate. rewrite Hd, Hp, bind_new_Date. cbv zeta.
  rewrite <- Hsame.
  replace (getMonth tz disbursed + (clock w (ticks w) - disbursed) / 2630016000 + 1)%Z
    with (getMonth tz disbursed + ((clock w (ticks w) - disbursed) / 2630016000 + 1))%Z by lia.
  destruct (_ <? _)%Z; reflexivity.
Qed.
End NextDueDate.

(** The scenario loan, disbursed on 2024-01-17 and looked at on 2024-06-01,
    is such a loan: four 30.44-day months have elapsed and the due date is
    2024-06-17. *)
Example calculateNextDueDate_scenario :
  fst (OverdueService.calculateNextDueDate 0 scenarioLoan
         (worldAt (JsDate.utc 2024 6 1 0 0) [scenarioLoan]))
    = Returned (NextDueDate_spec 0 (JsDate.utc 2024 6 1 0 0) scenarioLoan) /\
  NextDueDate_spec 0 (JsDate.utc 2024 6 1 0 0) scenarioLoan = Some (JsDate.utc 2024 6 17 0 0).
Proof.
  split; [|vm_compute; reflexivity].
  apply (calculateNextDueDate_agrees_within_year 0 scenarioLoan
           (worldAt (JsDate.utc 2024 6 1 0 0) [scenarioLoan]) (JsDate.utc 2024 1 17 0 0));
    vm_compute; reflexivity.
Qed.

(** C4, where the code departs from it.  A loan disbursed on 2023-12-15 and
    never paid, looked at on 2024-03-01 (UTC): two 30.44-day months have
    elapsed, so the due date three months after disbursement is 2024-03-15.
    The code has already moved [nextDue] to 2024-01-15 when it sets the month
    to December + 3, and lands on 2025-03-15. *)
Theorem calculateNextDueDate_december_rollover :
  let now := JsDate.utc 2024 3 1 12 0 in
  fst (OverdueService.calculateNextDueDate 0 decemberLoan (worldAt now [decemberLoan]))
    = Returned (Some (JsDate.utc 2025 3 15 10 0)) /\
  NextDueDate_spec 0 now decemberLoan = Some (JsDate.utc 2024 3 15 10 0) /\
  ((now - JsDate.utc 2023 12 15 10 0) / 2630016000 + 1 = 3)%Z.
Proof. vm_compute. repeat split; reflexivity. Qed.

(** ** The maturity date *)

Section MaturityDate.
Import JsDate.
Variable tz : Z.

(** [POST /api/loans] derives the maturity date from the instant of the
    application: the third clock reading of the handler, after the two of
    [generateLoanNumber]. *)
Lemma createLoan_maturityDate (schema : loans.SchemaDefaults) (userId newId : string)
    (loanData : CreateLoanRequest.t) (w : World) :
  CreateLoanRequest.customerId loanData ∈ customers w ->
  exists l w',
    loans.createLoan tz schema userId loanData newId w
      = (Returned (Response.mk 201 true "Loan application created successfully" (Some l)), w') /\
    loans w' !! newId = Some l /\
    Loan.disbursementDate l = None /\
    Loan.maturityDate l =
      Some (addCalendarMonths tz (clock w (2 + ticks w)) (CreateLoanRequest.tenure loanData)).
Proof.
  intros Hc. unfold loans.createLoan, prisma.customer_exists.
  unfold bind at 1. rewrite bool_decide_eq_true_2 by exact Hc. cbn [negb].
  eexists _, _. split; [reflexivity|]. split; [apply lookup_insert_eq|].
  split; reflexivity.
Qed.

(** [PUT /api/loans/:id/disburse] stamps the disbursement date and leaves
    the maturity date as it was. *)
Lemma disburseLoan_keeps_maturityDate (id userId : string) (l : Loan.t) (w : World) :
  loans w !! id = Some l ->
  exists l' w',
    loans.disburseLoan id userId w
      = (Returned (Response.mk 200 true "Loan disbursed successfully" (Some l')), w') /\
    loans w' !! id = Some l' /\
    Loan.status l' = LoanStatus.ACTIVE /\
    Loan.disbursementDate l' = Some (clock w (ticks w)) /\
    Loan.maturityDate l' = Loan.maturityDate l.
Proof.
  intros Hl. unfold loans.disburseLoan. rewrite bind_new_Date.
  unfold prisma.loan_update, bind. cbn [loans new_Date snd]. rewrite Hl.
  eexists _, _. split; [reflexivity|]. split; [apply lookup_insert_eq|].
  repeat split.
Qed.
End MaturityDate.

(** C9, where the code departs from it.  An application for 12 months filed
    on 2024-01-01 and disbursed on 2024-02-15 (UTC): the persisted maturity
    date is 2025-01-01, twelve calendar months after the application, not
    2025-02-15, twelve calendar months after the disbursement. *)
Theorem maturityDate_counts_from_application :
  exists created disbursed w1 w2,
    loans.createLoan 0 sampleSchema "user-1" applicationRequest "loan-9" applicationWorld
      = (Returned (Response.mk 201 true "Loan application created successfully" (Some created)), w1) /\
    loans.disburseLoan "loan-9" "user-1" w1
      = (Returned (Response.mk 200 true "Loan disbursed successfully" (Some disbursed)), w2) /\
    loans w2 !! "loan-9" = Some disbursed /\
    Loan.status disbursed = LoanStatus.ACTIVE /\
    Loan.tenure disbursed = 12%Z /\
    Loan.disbursementDate disbursed = Some (JsDate.utc 2024 2 15 9 0) /\
    Loan.maturityDate disbursed = Some (JsDate.utc 2025 1 1 9 0) /\
    addCalendarMonths 0 (JsDate.utc 2024 2 15 9 0) 12 = JsDate.utc 2025 2 15 9 0.
Proof.
  eexists _, _, _, _.
  split; [vm_compute; reflexivity|].
  split; [vm_compute; reflexivity|].
  vm_compute. repeat split; reflexivity.
Qed.

(** ** The overdue refresh and [overdueSince] *)

(** C6 (amended).  [updateLoanOverdueStatus], and likewise one turn of the loop
    of [updateAllOverdueLoans], write the recomputed snapshot; they set
    [overdueSince] to the instant read right after the computation when the
    loan goes from not overdue to overdue, and in every other case leave it
    as it was, also when the loan stops being overdue; no column outside the
    overdue snapshot and no other row changes. *)
Theorem overdue_refresh_stamps_entry_only (tz : Z) :
  (forall loanId l w, loans w !! loanId = Some l ->
     exists r w1 l' w',
       OverdueService.calculateOverdueStatus tz l w = (Returned r, w1) /\
       OverdueService.updateLoanOverdueStatus tz loanId w = (Returned l', w') /\
       loans w' = <[loanId := l']> (loans w) /\
       overdueSnapshotWritten l l r (clock w1 (ticks w1)) l') /\
  (forall loan stored counts w, loans w !! Loan.id loan = Some stored ->
     exists r w1 counts' l' w',
       OverdueService.calculateOverdueStatus tz loan w = (Returned r, w1) /\
       OverdueService.updateAllOverdueLoans_body tz loan counts w = (Returned counts', w') /\
       loans w' = <[Loan.id loan := l']> (loans w) /\
       overdueSnapshotWritten loan stored r (clock w1 (ticks w1)) l').
Proof.
  split.
  - intros loanId l w Hl.
    destruct (updateLoanOverdueStatus_run tz loanId l w Hl)
      as (r & w1 & w' & Hr & Hrun & Hloans & _).
    exists r, w1. eexists. exists w'.
    split; [exact Hr|]. split; [exact Hrun|]. split; [exact Hloans|].
    apply overdueRefreshed_written.
  - intros loan stored counts w Hl.
    destruct (updateAllOverdueLoans_body_run tz loan stored counts w Hl)
      as (r & w1 & counts' & w' & Hr & Hrun & Hloans & _).
    exists r, w1, counts'. eexists. exists w'.
    split; [exact Hr|]. split; [exact Hrun|]. split; [exact Hloans|].
    apply overdueRefreshed_written.
Qed.

Lemma overdue_refresh_stamps_entry_only_witness :
  exists l' w',
    OverdueService.updateLoanOverdueStatus 0 "loan-1"
      (worldAt (JsDate.utc 2024 4 1 12 0) [paidLoan]) = (Returned l', w') /\
    Loan.isOverdue paidLoan = false /\
    Loan.isOverdue l' = true /\
    Loan.overdueSince l' = Some (JsDate.utc 2024 4 1 12 0) /\
    Loan.outstandingBalance l' = Loan.outstandingBalance paidLoan.
Proof.
  destruct (proj1 (overdue_refresh_stamps_entry_only 0) "loan-1" paidLoan
              (worldAt (JsDate.utc 2024 4 1 12 0) [paidLoan]))
    as (r & w1 & l' & w' & Hr & Hrun & _ & Hw).
  - vm_compute. reflexivity.
  - vm_compute in Hr. injection Hr as <- <-.
    destruct Hw as (H1 & _ & _ & _ & _ & Hstamp & _ & Hframe).
    exists l', w'. split; [exact Hrun|]. split; [reflexivity|].
    split; [exact H1|]. split; [apply Hstamp; reflexivity|].
    apply Hframe.
Defined.

(** C6 as stated fails where it has [overdueSince] cleared: the loan that
    lapsed in March and caught up on 2024-04-02 is refreshed to not overdue,
    and still carries the [overdueSince] of 2024-04-01. *)
Lemma overdueSince_survives_catching_up :
  exists l' w',
    OverdueService.updateLoanOverdueStatus 0 "loan-1"
      (worldAt (JsDate.utc 2024 4 2 10 1) [caughtUpLoan]) = (Returned l', w') /\
    Loan.isOverdue caughtUpLoan = true /\
    Loan.isOverdue l' = false /\
    Loan.overdueSince l' = Some (JsDate.utc 2024 4 1 0 0).
Proof. eexists _, _. split; [vm_compute; reflexivity|]. vm_compute. repeat split. Qed.

(** ** Recording a payment *)

Section RecordPayment.
Import payments.
Variable tz : Z.

Lemma updatesBalance_iff (ty : PaymentType.t) :
  updatesBalance ty = true <->
  ty = PaymentType.EMI_PAYMENT \/ ty = PaymentType.PARTIAL_PAYMENT \/
  ty = PaymentType.LOAN_CLOSURE.
Proof. destruct ty; cbn; intuition discriminate. Qed.

(** A rolled-back transaction leaves the database as it found it. *)
Lemma transaction_rollback {A} (m : M A) (w w' : World) (e : Exn) :
  prisma.transaction m w = (Thrown e, w') ->
  loans w' = loans w /\ payments w' = payments w /\ customers w' = customers w.
Proof.
  unfold prisma.transaction. destruct (m w) as [[a|e'] w1]; [discriminate|].
  intros [= _ <-]. repeat split.
Qed.

Lemma recordPayment_not_found (userId : string) (paymentData : CreatePaymentRequest.t)
    (w : World) :
  loans w !! CreatePaymentRequest.loanId paymentData = None ->
  recordPayment tz userId paymentData w
    = (Returned (Response.mk 404 false "Loan not found" None), w).
Proof.
  intros Hl. unfold recordPayment. cbv zeta.
  rewrite (bind_returned _ _ w w None) by (unfold prisma.loan_findUnique; now rewrite Hl).
  reflexivity.
Qed.

(** One run of the handler for a payment that moves the balance. *)
Lemma recordPayment_run (userId : string) (paymentData : CreatePaymentRequest.t)
    (l : Loan.t) (w : World) :
  loans w !! CreatePaymentRequest.loanId paymentData = Some l ->
  updatesBalance (CreatePaymentRequest.paymentType paymentData) = true ->
  exists r w1 w2 w',
    OverdueService.calculateOverdueStatus tz
      (paymentApplied l (CreatePaymentRequest.amount paymentData) (clock w (S (ticks w)))) w1
      = (Returned r, w2) /\
    recordPayment tz userId paymentData w
      = (Returned (Response.mk 201 true "Payment recorded successfully"
                     (Some (paymentRow userId paymentData (clock w (ticks w))))), w') /\
    loans w' =
      <[CreatePaymentRequest.loanId paymentData :=
          overdueRefreshed
            (paymentApplied l (CreatePaymentRequest.amount paymentData) (clock w (S (ticks w))))
            (paymentApplied l (CreatePaymentRequest.amount paymentData) (clock w (S (ticks w))))
            r (clock w2 (ticks w2))]> (loans w) /\
    payments w' = payments w ++ [paymentRow userId paymentData (clock w (ticks w))] /\
    console w' = console w.
Proof.
  intros Hl Hty.
  set (l1 := paymentApplied l (CreatePaymentRequest.amount paymentData) (clock w (S (ticks w)))).
  set (p := paymentRow userId paymentData (clock w (ticks w))).
  set (w1 := mkWorld (<[CreatePaymentRequest.loanId paymentData := l1]> (loans w))
                     (payments w ++ [p]) (customers w) (console w) (clock w)
                     (S (S (ticks w)))).
  assert (loans w1 !! CreatePaymentRequest.loanId paymentData = Some l1) as Hl1
    by apply lookup_insert_eq.
  destruct (updateLoanOverdueStatus_run tz _ l1 w1 Hl1)
    as (r & w2 & w' & Hr & Hrun & Hloans & Hpay & _ & Hcon & _).
  exists r, w1, w2, w'. split; [exact Hr|].
  split; [|split; [|split]].
  - unfold recordPayment. cbv zeta.
    rewrite (bind_returned _ _ w w (Some l))
      by (unfold prisma.loan_findUnique; now rewrite Hl).
    rewrite bind_new_Date.
    erewrite (bind_returned (prisma.transaction _) _ _ w1 p).
    + assert (bind (OverdueService.updateLoanOverdueStatus tz
                      (CreatePaymentRequest.loanId paymentData)) (fun _ => ret tt) w1
              = (Returned tt, w')) as Hrefresh
        by (now rewrite (bind_returned _ _ _ _ _ Hrun)).
      rewrite (bind_returned _ _ _ _ _ (try_catch_returned _ _ _ _ _ Hrefresh)).
      reflexivity.
    + unfold prisma.transaction, prisma.payment_create, prisma.loan_findUnique,
        prisma.loan_update, bind, new_Date, ret.
      rewrite Hty. cbn [loans snd]. rewrite Hl. cbn [loans]. rewrite Hl. reflexivity.
  - rewrite Hloans. apply insert_insert_eq.
  - exact Hpay.
  - exact Hcon.
Qed.

Lemma floor_at_zero (x : Q) :
  (0 <= Qmax 0 x)%Q /\
  ((Qmax 0 x == 0)%Q -> Qle_bool x 0 = true) /\
  ((0 < Qmax 0 x)%Q -> Qle_bool x 0 = false).
Proof.
  split; [apply Q.le_max_l|]. split.
  - intros H. apply Qle_bool_iff. rewrite <- H. apply Q.le_max_r.
  - intros H. destruct (Qle_bool x 0) eqn:E; [|reflexivity].
    apply Qle_bool_iff in E. rewrite (Q.max_l 0 x E) in H.
    now apply Qlt_irrefl in H.
Qed.
End RecordPayment.

(** C1.  [POST /api/payments] answers 404 "Loan not found" and changes
    nothing when the loan does not exist.  For an EMI, partial or closure
    payment against an existing loan it answers 201, adds the payment row
    and, together with it, updates the loan row: [outstandingBalance] becomes
    [max(0, previous - amount)], [totalAmountPaid] grows by the amount,
    [lastPaymentDate] is the instant read at the update, and the status is
    COMPLETED when the new balance is 0 and unchanged when it is positive.
    No other loan row changes. *)
Theorem recordPayment_applies_payment (tz : Z) (userId : string)
    (paymentData : CreatePaymentRequest.t) (w : World) :
  (loans w !! CreatePaymentRequest.loanId paymentData = None ->
     payments.recordPayment tz userId paymentData w
       = (Returned (Response.mk 404 false "Loan not found" None), w)) /\
  (forall l,
     loans w !! CreatePaymentRequest.loanId paymentData = Some l ->
     payments.updatesBalance (CreatePaymentRequest.paymentType paymentData) = true ->
     exists p l' w',
       payments.recordPayment tz userId paymentData w
         = (Returned (Response.mk 201 true "Payment recorded successfully" (Some p)), w') /\
       payments w' = payments w ++ [p] /\
       Payment.loanId p = CreatePaymentRequest.loanId paymentData /\
       Payment.amount p = CreatePaymentRequest.amount paymentData /\
       loans w' !! CreatePaymentRequest.loanId paymentData = Some l' /\
       (forall other, other <> CreatePaymentRequest.loanId paymentData ->
          loans w' !! other = loans w !! other) /\
       Loan.outstandingBalance l'
         = Qmax 0 (Loan.outstandingBalance l - CreatePaymentRequest.amount paymentData) /\
       (0 <= Loan.outstandingBalance l')%Q /\
       Loan.totalAmountPaid l'
         = (Loan.totalAmountPaid l + CreatePaymentRequest.amount paymentData)%Q /\
       Loan.lastPaymentDate l' = Some (clock w (S (ticks w))) /\
       ((Loan.outstandingBalance l' == 0)%Q -> Loan.status l' = LoanStatus.COMPLETED) /\
       ((0 < Loan.outstandingBalance l')%Q -> Loan.status l' = Loan.status l)).
Proof.
  split; [apply recordPayment_not_found|].
  intros l Hl Hty.
  destruct (recordPayment_run tz userId paymentData l w Hl Hty)
    as (r & w1 & w2 & w' & _ & Hrun & Hloans & Hpay & _).
  pose proof (floor_at_zero
                (Loan.outstandingBalance l - CreatePaymentRequest.amount paymentData))
    as (Hnonneg & Hzero & Hpos).
  eexists _, _, w'. split; [exact Hrun|]. split; [exact Hpay|].
  split; [reflexivity|]. split; [reflexivity|].
  split; [rewrite Hloans; apply lookup_insert_eq|].
  split; [intros other Hne; rewrite Hloans; now apply lookup_insert_ne|].
  cbn. split; [reflexivity|]. split; [exact Hnonneg|]. split; [reflexivity|].
  split; [reflexivity|]. split.
  - intros H. now rewrite (Hzero H).
  - intros H. now rewrite (Hpos H).
Qed.

Lemma recordPayment_applies_payment_witness :
  exists p l' w',
    payments.recordPayment 0 "user-1"
      (payment "loan-1" (888488 # 100) PaymentType.EMI_PAYMENT)
      (worldAt (JsDate.utc 2024 2 17 0 0) [scenarioLoan])
      = (Returned (Response.mk 201 true "Payment recorded successfully" (Some p)), w') /\
    loans w' !! "loan-1" = Some l' /\
    (Loan.outstandingBalance l' == 9111512 # 100)%Q /\
    (Loan.totalAmountPaid l' == 888488 # 100)%Q /\
    Loan.lastPaymentDate l' = Some (JsDate.utc 2024 2 17 0 0) /\
    Loan.status l' = LoanStatus.ACTIVE.
Proof.
  destruct (proj2 (recordPayment_applies_payment 0 "user-1"
                     (payment "loan-1" (888488 # 100) PaymentType.EMI_PAYMENT)
                     (worldAt (JsDate.utc 2024 2 17 0 0) [scenarioLoan])) scenarioLoan)
    as (p & l' & w' & Hrun & _ & _ & _ & Hl' & _ & Hbal & _ & Hpaid & Hdate & _ & Hst).
  - vm_compute. reflexivity.
  - reflexivity.
  - exists p, l', w'. split; [exact Hrun|]. split; [exact Hl'|].
    split; [rewrite Hbal; vm_compute; reflexivity|].
    split; [rewrite Hpaid; vm_compute; reflexivity|].
    split; [exact Hdate|].
    rewrite Hst; [reflexivity|]. rewrite Hbal. vm_compute. reflexivity.
Defined.

(** C10.  The handler looks at the loan's existence only.  Whatever the
    status of the loan, an EMI, partial or closure payment is answered 201
    and stored as COMPLETED, the balance update is applied, and when the
    balance is used up the loan's status is overwritten with COMPLETED. *)
Theorem recordPayment_ignores_loan_status (tz : Z) (userId : string)
    (paymentData : CreatePaymentRequest.t) (status : LoanStatus.t) (l : Loan.t)
    (w : World) :
  loans w !! CreatePaymentRequest.loanId paymentData = Some l ->
  Loan.status l = status ->
  payments.updatesBalance (CreatePaymentRequest.paymentType paymentData) = true ->
  exists p l' w',
    payments.recordPayment tz userId paymentData w
      = (Returned (Response.mk 201 true "Payment recorded successfully" (Some p)), w') /\
    payments w' = payments w ++ [p] /\
    Payment.status p = PaymentStatus.COMPLETED /\
    loans w' !! CreatePaymentRequest.loanId paymentData = Some l' /\
    Loan.outstandingBalance l'
      = Qmax 0 (Loan.outstandingBalance l - CreatePaymentRequest.amount paymentData) /\
    Loan.totalAmountPaid l'
      = (Loan.totalAmountPaid l + CreatePaymentRequest.amount paymentData)%Q /\
    ((Loan.outstandingBalance l - CreatePaymentRequest.amount paymentData <= 0)%Q ->
       Loan.status l' = LoanStatus.COMPLETED) /\
    ((0 < Loan.outstandingBalance l - CreatePaymentRequest.amount paymentData)%Q ->
       Loan.status l' = status).
Proof.
  intros Hl Hst Hty.
  destruct (recordPayment_run tz userId paymentData l w Hl Hty)
    as (r & w1 & w2 & w' & _ & Hrun & Hloans & Hpay & _).
  eexists _, _, w'. split; [exact Hrun|]. split; [exact Hpay|].
  split; [reflexivity|].
  split; [rewrite Hloans; apply lookup_insert_eq|].
  cbn. split; [reflexivity|]. split; [reflexivity|]. split.
  - intros H. apply Qle_bool_iff in H. now rewrite H.
  - intros H. destruct (Qle_bool _ 0) eqn:E; [|exact Hst].
    apply Qle_bool_iff in E. exfalso. exact (Qlt_not_le _ _ H E).
Qed.

Lemma recordPayment_ignores_loan_status_witness :
  exists p l' w',
    payments.recordPayment 0 "user-1"
      (payment "loan-1" 100000 PaymentType.LOAN_CLOSURE)
      (worldAt (JsDate.utc 2024 2 17 0 0) [rejectedLoan])
      = (Returned (Response.mk 201 true "Payment recorded successfully" (Some p)), w') /\
    Payment.status p = PaymentStatus.COMPLETED /\
    loans w' !! "loan-1" = Some l' /\
    Loan.status rejectedLoan = LoanStatus.REJECTED /\
    Loan.status l' = LoanStatus.COMPLETED.
Proof.
  destruct (recordPayment_ignores_loan_status 0 "user-1"
              (payment "loan-1" 100000 PaymentType.LOAN_CLOSURE)
              LoanStatus.REJECTED rejectedLoan
              (worldAt (JsDate.utc 2024 2 17 0 0) [rejectedLoan]))
    as (p & l' & w' & Hrun & _ & Hp & Hl' & _ & _ & Hdone & _).
  - vm_compute. reflexivity.
  - reflexivity.
  - reflexivity.
  - exists p, l', w'. split; [exact Hrun|]. split; [exact Hp|]. split; [exact Hl'|].
    split; [reflexivity|]. apply Hdone. vm_compute. discriminate.
Defined.

(** ** Overdue state outside ACTIVE *)




(** ** The batch sweep *)

Section Sweep.
Import OverdueService.
Variable tz : Z.



End Sweep.






(** * Further properties of the modelled code *)

(** ** Default escalation *)

(** [checkAndMarkDefaulted] answers [true] exactly for a stored loan that is
    flagged overdue with [daysOverdue] at or above the threshold; the loan's
    status plays no part.  It then writes the status and nothing else; when
    it answers [false] (also for an unknown id) the world is untouched.  It
    never throws. *)
Theorem checkAndMarkDefaulted_exact (loanId : string) (threshold : Z) (w : World) :
  exists b w',
    OverdueService.checkAndMarkDefaulted loanId threshold w = (Returned b, w') /\
    (b = true <->
       exists l, loans w !! loanId = Some l /\ Loan.isOverdue l = true /\
                 (threshold <= Loan.daysOverdue l)%Z) /\
    (b = false -> w' = w) /\
    (forall l, b = true -> loans w !! loanId = Some l ->
       loans w' = <[loanId := Loan.update l [Loan.set_status LoanStatus.DEFAULTED]]> (loans w) /\
       payments w' = payments w /\ customers w' = customers w /\
       console w' = console w /\ ticks w' = ticks w).
Proof.
  unfold OverdueService.checkAndMarkDefaulted, prisma.loan_findUnique, prisma.loan_update,
    bind, ret.
  destruct (loans w !! loanId) as [l|] eqn:Hl.
  - destruct (Loan.isOverdue l) eqn:Hover; cbn [negb].
    + destruct (threshold <=? Loan.daysOverdue l)%Z eqn:Hdays.
      * rewrite Hl. eexists _, _. split; [reflexivity|]. split; [|split].
        -- split; [intros _; exists l; repeat split; [exact Hover|lia]|reflexivity].
        -- discriminate.
        -- intros l' _ [= <-]. repeat split.
      * exists false, w. split; [reflexivity|]. split; [|split].
        -- split; [discriminate|]. intros (l' & [= <-] & _ & Hle). lia.
        -- reflexivity.
        -- discriminate.
    + exists false, w. split; [reflexivity|]. split; [|split].
      * split; [discriminate|]. intros (l' & [= <-] & Hov & _). congruence.
      * reflexivity.
      * discriminate.
  - exists false, w. split; [reflexivity|]. split; [|split].
    + split; [discriminate|]. intros (l' & [=] & _).
    + reflexivity.
    + discriminate.
Qed.

(** ** Penalty accrual over time *)

(** The penalty is simple, not compound: over [d1 + d2] days it is the sum of
    the penalties over [d1] and over [d2] days; and it is never negative for
    a non-negative rate and overdue amount. *)
Theorem calculatePenalty_accrues_linearly (loan : Loan.t) (d1 d2 : Z) (overdueAmount : Q) :
  (0 < d1)%Z -> (0 < d2)%Z ->
  (0 <= Loan.penaltyRate loan)%Q -> (0 <= overdueAmount)%Q ->
  (OverdueService.calculatePenalty loan (d1 + d2) overdueAmount ==
     OverdueService.calculatePenalty loan d1 overdueAmount +
     OverdueService.calculatePenalty loan d2 overdueAmount)%Q /\
  (0 <= OverdueService.calculatePenalty loan d1 overdueAmount)%Q /\
  (OverdueService.calculatePenalty loan d1 overdueAmount <=
     OverdueService.calculatePenalty loan (d1 + d2) overdueAmount)%Q.
Proof.
  intros H1 H2 Hrate Hamount.
  assert (forall d, (0 < d)%Z ->
            (0 <= OverdueService.calculatePenalty loan d overdueAmount)%Q) as Hnonneg.
  { intros d Hd. unfold OverdueService.calculatePenalty.
    assert ((d <=? 0)%Z = false) as -> by lia.
    assert (0 <= inject_Z d)%Q as Hd' by (unfold Qle; cbn; lia).
    destruct (Loan.penaltyType loan).
    - apply Qmult_le_0_compat; [|exact Hd'].
      apply Qmult_le_0_compat; [exact Hamount|].
      apply Qle_shift_div_l; [reflexivity|]. rewrite Qmult_0_l.
      apply Qle_shift_div_l; [reflexivity|]. now rewrite Qmult_0_l.
    - now apply Qmult_le_0_compat. }
  assert (OverdueService.calculatePenalty loan (d1 + d2) overdueAmount ==
            OverdueService.calculatePenalty loan d1 overdueAmount +
            OverdueService.calculatePenalty loan d2 overdueAmount)%Q as Hsum.
  { unfold OverdueService.calculatePenalty.
    assert ((d1 <=? 0)%Z = false) as -> by lia.
    assert ((d2 <=? 0)%Z = false) as -> by lia.
    assert ((d1 + d2 <=? 0)%Z = false) as -> by lia.
    rewrite inject_Z_plus. destruct (Loan.penaltyType loan); ring. }
  split; [exact Hsum|]. split; [now apply Hnonneg|].
  rewrite Hsum. rewrite <- (Qplus_0_r (OverdueService.calculatePenalty loan d1 overdueAmount)) at 1.
  apply Qplus_le_r. now apply Hnonneg.
Qed.

Lemma calculatePenalty_accrues_linearly_witness :
  (OverdueService.calculatePenalty scenarioLoan (30 + 15) 10000 ==
     OverdueService.calculatePenalty scenarioLoan 30 10000 +
     OverdueService.calculatePenalty scenarioLoan 15 10000)%Q.
Proof.
  apply (calculatePenalty_accrues_linearly scenarioLoan 30 15 10000);
    try reflexivity; vm_compute; discriminate.
Defined.

(** ** Disbursing and rejecting a loan *)

(** [PUT /api/loans/:id/disburse] checks no status: a stored loan of any
    status becomes ACTIVE with the disbursement date read from the clock,
    and exactly one LOAN_DISBURSEMENT payment of the principal amount is
    stored as COMPLETED, without receipt number; no other column of the
    loan changes, so the balances stay as they were.  For an unknown id the
    update throws and neither a loan nor a payment is written. *)
Theorem disburseLoan_checks_no_status (id userId : string) (w : World) :
  (loans w !! id = None ->
     exists w',
       loans.disburseLoan id userId w = (Thrown (RecordNotFound "Loan"), w') /\
       loans w' = loans w /\ payments w' = payments w) /\
  (forall l, loans w !! id = Some l ->
     exists l' w',
       loans.disburseLoan id userId w
         = (Returned (Response.mk 200 true "Loan disbursed successfully" (Some l')), w') /\
       l' = Loan.update l [ Loan.set_status LoanStatus.ACTIVE;
                            Loan.set_disbursementDate (Some (clock w (ticks w))) ] /\
       loans w' = <[id := l']> (loans w) /\
       payments w' =
         payments w ++
           [ Payment.mk id (Loan.principalAmount l) PaymentType.LOAN_DISBURSEMENT
               "Bank Transfer" None None None None None
               (Some "Loan amount disbursed to customer"%string) None userId
               PaymentStatus.COMPLETED ] /\
       Loan.outstandingBalance l' = Loan.outstandingBalance l /\
       Loan.totalAmountPaid l' = Loan.totalAmountPaid l /\
       Loan.lastPaymentDate l' = Loan.lastPaymentDate l /\
       Loan.isOverdue l' = Loan.isOverdue l).
Proof.
  split.
  - intros Hl. unfold loans.disburseLoan. rewrite bind_new_Date.
    unfold prisma.loan_update, bind. cbn [loans new_Date snd]. rewrite Hl.
    eexists. split; [reflexivity|]. split; reflexivity.
  - intros l Hl. unfold loans.disburseLoan. rewrite bind_new_Date.
    unfold prisma.loan_update, prisma.payment_create, bind, ret.
    cbn [loans new_Date snd]. rewrite Hl.
    eexists _, _. split; [reflexivity|]. repeat split.
Qed.

Lemma disburseLoan_checks_no_status_witness :
  exists l' w',
    loans.disburseLoan "loan-1" "user-1" (worldAt (JsDate.utc 2024 5 1 0 0) [rejectedLoan])
      = (Returned (Response.mk 200 true "Loan disbursed successfully" (Some l')), w') /\
    Loan.status rejectedLoan = LoanStatus.REJECTED /\
    Loan.status l' = LoanStatus.ACTIVE /\
    length (payments w') = 1%nat.
Proof.
  destruct (proj2 (disburseLoan_checks_no_status "loan-1" "user-1"
                     (worldAt (JsDate.utc 2024 5 1 0 0) [rejectedLoan])) rejectedLoan)
    as (l' & w' & Hrun & Hl' & _ & Hpay & _).
  - vm_compute. reflexivity.
  - exists l', w'. split; [exact Hrun|]. split; [reflexivity|].
    split; [rewrite Hl'; reflexivity|]. rewrite Hpay. reflexivity.
Defined.

(** [PUT /api/loans/:id/reject] checks no status either: a stored loan of
    any status, also ACTIVE or COMPLETED, becomes REJECTED with the given
    remarks; every other column, the overdue snapshot included, stays.  For
    an unknown id the update throws and nothing is written. *)
Theorem rejectLoan_checks_no_status (id remarks : string) (w : World) :
  (loans w !! id = None ->
     loans.rejectLoan id remarks w = (Thrown (RecordNotFound "Loan"), w)) /\
  (forall l, loans w !! id = Some l ->
     exists l' w',
       loans.rejectLoan id remarks w
         = (Returned (Response.mk 200 true "Loan rejected successfully" (Some l')), w') /\
       l' = Loan.update l [ Loan.set_status LoanStatus.REJECTED;
                            Loan.set_remarks (Some remarks) ] /\
       loans w' = <[id := l']> (loans w) /\
       payments w' = payments w /\
       Loan.status l' = LoanStatus.REJECTED /\
       Loan.outstandingBalance l' = Loan.outstandingBalance l /\
       Loan.isOverdue l' = Loan.isOverdue l /\
       Loan.daysOverdue l' = Loan.daysOverdue l).
Proof.
  split.
  - intros Hl. unfold loans.rejectLoan, prisma.loan_update, bind. now rewrite Hl.
  - intros l Hl. unfold loans.rejectLoan, prisma.loan_update, bind, ret. rewrite Hl.
    eexists _, _. split; [reflexivity|]. repeat split.
Qed.

Lemma rejectLoan_checks_no_status_witness :
  exists l' w',
    loans.rejectLoan "loan-1" "duplicate application"
      (worldAt (JsDate.utc 2024 5 1 0 0) [lapsedLoan])
      = (Returned (Response.mk 200 true "Loan rejected successfully" (Some l')), w') /\
    Loan.status lapsedLoan = LoanStatus.ACTIVE /\
    Loan.status l' = LoanStatus.REJECTED /\
    Loan.isOverdue l' = true.
Proof.
  destruct (proj2 (rejectLoan_checks_no_status "loan-1" "duplicate application"
                     (worldAt (JsDate.utc 2024 5 1 0 0) [lapsedLoan])) lapsedLoan)
    as (l' & w' & Hrun & Hl' & _).
  - vm_compute. reflexivity.
  - exists l', w'. split; [exact Hrun|]. rewrite Hl'. repeat split.
Defined.

(** ** Payments that do not move the balance *)

(** One run of the handler for a payment that does not move the balance. *)
Lemma recordPayment_run_other (tz : Z) (userId : string)
    (paymentData : CreatePaymentRequest.t) (l : Loan.t) (w : World) :
  loans w !! CreatePaymentRequest.loanId paymentData = Some l ->
  payments.updatesBalance (CreatePaymentRequest.paymentType paymentData) = false ->
  exists r stamp w',
    payments.recordPayment tz userId paymentData w
      = (Returned (Response.mk 201 true "Payment recorded successfully"
                     (Some (paymentRow userId paymentData (clock w (ticks w))))), w') /\
    payments w' = payments w ++ [paymentRow userId paymentData (clock w (ticks w))] /\
    loans w' =
      <[CreatePaymentRequest.loanId paymentData := overdueRefreshed l l r stamp]> (loans w).
Proof.
  intros Hl Hty.
  set (p := paymentRow userId paymentData (clock w (ticks w))).
  set (w1 := mkWorld (loans w) (payments w ++ [p]) (customers w) (console w) (clock w)
                     (S (ticks w))).
  destruct (updateLoanOverdueStatus_run tz _ l w1 Hl)
    as (r & w2 & w' & Hr & Hrun & Hloans & Hpay & _).
  exists r, (clock w2 (ticks w2)), w'. split; [|split; [exact Hpay|exact Hloans]].
  unfold payments.recordPayment. cbv zeta.
  rewrite (bind_returned _ _ w w (Some l))
    by (unfold prisma.loan_findUnique; now rewrite Hl).
  rewrite bind_new_Date.
  erewrite (bind_returned (prisma.transaction _) _ _ w1 p).
  - assert (bind (OverdueService.updateLoanOverdueStatus tz
                    (CreatePaymentRequest.loanId paymentData)) (fun _ => ret tt) w1
            = (Returned tt, w')) as Hrefresh
      by (now rewrite (bind_returned _ _ _ _ _ Hrun)).
    rewrite (bind_returned _ _ _ _ _ (try_catch_returned _ _ _ _ _ Hrefresh)).
    reflexivity.
  - unfold prisma.transaction, prisma.payment_create, bind, ret. rewrite Hty. reflexivity.
Qed.

(** A disbursement, interest or penalty payment against a stored loan is
    answered 201 and stored as COMPLETED like any other, but the loan's
    balance, total paid, last payment date and status are not touched: the
    only columns that can change are those of the overdue snapshot, through
    the refresh that follows.  No other loan row changes. *)
Theorem recordPayment_other_types_keep_balance (tz : Z) (userId : string)
    (paymentData : CreatePaymentRequest.t) (l : Loan.t) (w : World) :
  loans w !! CreatePaymentRequest.loanId paymentData = Some l ->
  payments.updatesBalance (CreatePaymentRequest.paymentType paymentData) = false ->
  exists l' w',
    payments.recordPayment tz userId paymentData w
      = (Returned (Response.mk 201 true "Payment recorded successfully"
                     (Some (paymentRow userId paymentData (clock w (ticks w))))), w') /\
    payments w' = payments w ++ [paymentRow userId paymentData (clock w (ticks w))] /\
    loans w' = <[CreatePaymentRequest.loanId paymentData := l']> (loans w) /\
    sameOutsideOverdueSnapshot l l'.
Proof.
  intros Hl Hty.
  destruct (recordPayment_run_other tz userId paymentData l w Hl Hty)
    as (r & stamp & w' & Hrun & Hpay & Hloans).
  exists (overdueRefreshed l l r stamp), w'.
  split; [exact Hrun|]. split; [exact Hpay|]. split; [exact Hloans|].
  apply overdueRefreshed_written.
Qed.

Lemma recordPayment_other_types_keep_balance_witness :
  exists l' w',
    payments.recordPayment 0 "user-1"
      (payment "loan-1" 500 PaymentType.PENALTY_PAYMENT)
      (worldAt (JsDate.utc 2024 4 1 12 0) [lapsedLoan])
      = (Returned (Response.mk 201 true "Payment recorded successfully"
                     (Some (paymentRow "user-1" (payment "loan-1" 500 PaymentType.PENALTY_PAYMENT)
                              (JsDate.utc 2024 4 1 12 0)))), w') /\
    loans w' !! "loan-1" = Some l' /\
    Loan.outstandingBalance l' = Loan.outstandingBalance lapsedLoan /\
    Loan.totalAmountPaid l' = Loan.totalAmountPaid lapsedLoan.
Proof.
  destruct (recordPayment_other_types_keep_balance 0 "user-1"
              (payment "loan-1" 500 PaymentType.PENALTY_PAYMENT) lapsedLoan
              (worldAt (JsDate.utc 2024 4 1 12 0) [lapsedLoan]))
    as (l' & w' & Hrun & _ & Hloans & Hsame).
  - vm_compute. reflexivity.
  - reflexivity.
  - exists l', w'. split; [exact Hrun|].
    split; [rewrite Hloans; apply lookup_insert_eq|].
    split; apply Hsame.
Defined.

(** ** Refreshing twice *)

Section Frozen.
Variable tz : Z.

(** At a clock that stands still the computed status depends on the loan
    only through its status, dates, EMI amount, balance and penalty
    configuration. *)
Lemma calculateOverdueStatus_frozen (l l' : Loan.t) (w w' : World) (now : Z) :
  (forall k, clock w k = now) -> (forall k, clock w' k = now) ->
  sameOutsideOverdueSnapshot l l' ->
  fst (OverdueService.calculateOverdueStatus tz l' w')
    = fst (OverdueService.calculateOverdueStatus tz l w).
Proof.
  intros Hw Hw' Hsame.
  destruct Hsame as (_ & _ & _ & _ & _ & _ & Hemi & Hbal & _ & _ & _ & _ & Hst & _ & Hdis
                     & _ & Hpaid & _ & _ & _ & _ & Hrate & Hty).
  unfold OverdueService.calculateOverdueStatus, OverdueService.calculateNextDueDate,
    OverdueService.calculatePenalty, bind, new_Date, ret.
  rewrite Hemi, Hbal, Hst, Hdis, Hpaid, Hrate, Hty.
  cbn [clock ticks]. rewrite ?Hw, ?Hw'.
  destruct (negb _); [reflexivity|].
  destruct (Loan.disbursementDate l) as [disbursed|]; [|reflexivity].
  destruct (Loan.lastPaymentDate l) as [paid|]; cbn [clock ticks]; rewrite ?Hw, ?Hw'.
  - destruct (_ <=? _)%Z; reflexivity.
  - destruct (_ <? _)%Z; cbn [clock ticks]; rewrite ?Hw, ?Hw';
      destruct (_ <=? _)%Z; reflexivity.
Qed.
End Frozen.

(** Refreshing a loan twice at the same instant is the same as refreshing it
    once: the second [updateLoanOverdueStatus] returns the row the first one
    stored and leaves the store as it is; in particular [overdueSince] is not
    stamped again. *)
Theorem updateLoanOverdueStatus_idempotent (tz : Z) (loanId : string) (l : Loan.t)
    (w : World) (now : Z) :
  (forall k, clock w k = now) ->
  loans w !! loanId = Some l ->
  exists l1 w1 w2,
    OverdueService.updateLoanOverdueStatus tz loanId w = (Returned l1, w1) /\
    OverdueService.updateLoanOverdueStatus tz loanId w1 = (Returned l1, w2) /\
    loans w2 = loans w1.
Proof.
  intros Hclock Hl.
  destruct (updateLoanOverdueStatus_run tz loanId l w Hl)
    as (r & wa & w1 & Hr & Hrun & Hloans & _ & _ & _ & Hk).
  set (l1 := overdueRefreshed l l r (clock wa (ticks wa))) in *.
  assert (loans w1 !! loanId = Some l1) as Hl1 by (rewrite Hloans; apply lookup_insert_eq).
  destruct (updateLoanOverdueStatus_run tz loanId l1 w1 Hl1)
    as (r' & wb & w2 & Hr' & Hrun' & Hloans' & _).
  assert (r' = r) as ->.
  { pose proof (calculateOverdueStatus_frozen tz l l1 w w1 now Hclock
                  ltac:(intros k; rewrite Hk; apply Hclock)
                  ltac:(apply overdueRefreshed_written)) as Heq.
    rewrite Hr, Hr' in Heq. cbn in Heq. congruence. }
  assert (overdueRefreshed l1 l1 r (clock wb (ticks wb)) = l1) as Hsame.
  { unfold l1, overdueRefreshed. cbn.
    destruct (OverdueCalculationResult.isOverdue r); reflexivity. }
  rewrite Hsame in Hrun', Hloans'.
  exists l1, w1, w2. split; [exact Hrun|]. split; [exact Hrun'|].
  rewrite Hloans'. now apply insert_id.
Qed.

Lemma updateLoanOverdueStatus_idempotent_witness :
  exists l1 w1 w2,
    OverdueService.updateLoanOverdueStatus 0 "loan-1"
      (worldAt (JsDate.utc 2024 4 1 12 0) [paidLoan]) = (Returned l1, w1) /\
    OverdueService.updateLoanOverdueStatus 0 "loan-1" w1 = (Returned l1, w2) /\
    loans w2 = loans w1.
Proof.
  apply (updateLoanOverdueStatus_idempotent 0 "loan-1" paidLoan
           (worldAt (JsDate.utc 2024 4 1 12 0) [paidLoan]) (JsDate.utc 2024 4 1 12 0)).
  - intros k. reflexivity.
  - vm_compute. reflexivity.
Defined.

(** A refresh asked for a loan that is not stored throws a plain error, not
    Prisma's record-not-found, and changes nothing. *)
Lemma updateLoanOverdueStatus_not_found (tz : Z) (loanId : string) (w : World) :
  loans w !! loanId = None ->
  OverdueService.updateLoanOverdueStatus tz loanId w = (Thrown (Error "Loan not found"), w).
Proof.
  intros Hl. unfold OverdueService.updateLoanOverdueStatus.
  rewrite (bind_returned _ _ w w None) by (unfold prisma.loan_findUnique; now rewrite Hl).
  reflexivity.
Qed.

(** ** Querying the overdue loans *)

Lemma LoanStatus_eqb_eq (a b : LoanStatus.t) : LoanStatus.eqb a b = true <-> a = b.
Proof. destruct a, b; cbn; split; congruence. Qed.

Lemma loan_findMany_rows (where_ : Loan.t -> bool) (w : World) :
  exists rows,
    prisma.loan_findMany where_ w = (Returned rows, w) /\
    (forall l, l ∈ rows <-> where_ l = true /\ stored w l) /\
    (wellKeyed w -> NoDup (map Loan.id rows)).
Proof.
  unfold prisma.loan_findMany. eexists. split; [reflexivity|]. split.
  - intros l. rewrite list_elem_of_filter. unfold stored.
    rewrite list_elem_of_fmap. split.
    + intros (Hw & [k x] & -> & Hin). apply elem_of_map_to_list in Hin. eauto.
    + intros (Hw & k & Hk). split; [exact Hw|]. exists (k, l). split; [reflexivity|].
      now apply elem_of_map_to_list.
  - intros Hkeyed.
    pose proof (NoDup_fst_map_to_list (loans w)) as Hnd.
    assert (forall kl, kl ∈ map_to_list (loans w) -> Loan.id (snd kl) = fst kl) as Hid.
    { intros [k l] Hin. apply elem_of_map_to_list in Hin. cbn. now apply Hkeyed. }
    revert Hnd Hid. generalize (map_to_list (loans w)). intros kls.
    induction kls as [|[k l] kls IH]; intros Hnd Hid; [constructor|].
    cbn [fmap list_fmap fst] in Hnd. apply NoDup_cons in Hnd as [Hk Hnd].
    assert (NoDup (map Loan.id (filter (fun l0 => where_ l0 = true) (map snd kls)))) as Hrest.
    { apply IH; [exact Hnd|]. intros kl Hin. apply Hid. now right. }
    cbn [map snd]. rewrite filter_cons. destruct (decide _); [|exact Hrest].
    cbn [map]. apply NoDup_cons. split; [|exact Hrest].
    intros Hin. apply Hk. apply list_elem_of_fmap in Hin as (l' & Hl' & Hin).
    apply list_elem_of_filter in Hin as [_ Hin].
    apply list_elem_of_fmap in Hin as ([k' l''] & -> & Hin).
    apply list_elem_of_fmap. exists (k', l''). split; [|exact Hin].
    pose proof (Hid (k', l'') ltac:(now right)) as H1.
    pose proof (Hid (k, l) ltac:(left)) as H2.
    cbn in *. congruence.
Qed.

Lemma insert_desc_elem (l x : Loan.t) (ls : list Loan.t) :
  x ∈ OverdueService.insert_desc l ls <-> x = l \/ x ∈ ls.
Proof.
  induction ls as [|y ls IH]; cbn.
  - rewrite list_elem_of_singleton. split; [auto|]. intros [H|H]; [exact H|inversion H].
  - destruct (_ <? _)%Z.
    + now rewrite !elem_of_cons.
    + rewrite !elem_of_cons, IH. tauto.
Qed.

Lemma insert_desc_sorted (l : Loan.t) (ls : list Loan.t) :
  StronglySorted byDaysOverdueDesc ls ->
  StronglySorted byDaysOverdueDesc (OverdueService.insert_desc l ls).
Proof.
  induction 1 as [|y ls Hsorted IH Hall]; cbn.
  - repeat constructor.
  - destruct (_ <? _)%Z eqn:Hlt.
    + constructor; [now constructor|].
      constructor; [unfold byDaysOverdueDesc; lia|].
      eapply Forall_impl; [exact Hall|]. unfold byDaysOverdueDesc. intros z Hz. lia.
    + constructor; [exact IH|].
      apply Forall_forall. intros z Hz. apply insert_desc_elem in Hz as [->|Hz].
      * unfold byDaysOverdueDesc. lia.
      * rewrite Forall_forall in Hall. now apply Hall.
Qed.

Lemma orderBy_daysOverdue_desc_sorted (ls : list Loan.t) :
  StronglySorted byDaysOverdueDesc (OverdueService.orderBy_daysOverdue_desc ls) /\
  (forall x, x ∈ OverdueService.orderBy_daysOverdue_desc ls <-> x ∈ ls).
Proof.
  induction ls as [|l ls [IH1 IH2]]; cbn.
  - split; [constructor|tauto].
  - split; [now apply insert_desc_sorted|].
    intros x. rewrite insert_desc_elem, elem_of_cons, IH2. tauto.
Qed.

(** [getOverdueLoans] reads only: it returns exactly the stored loans that
    are flagged overdue, ACTIVE and within the filters, most days overdue
    first.  A filter given as 0 is ignored like one that is absent. *)
Theorem getOverdueLoans_exact (filters : OverdueFilters.t) (w : World) :
  exists rows,
    OverdueService.getOverdueLoans filters w = (Returned rows, w) /\
    (forall l, l ∈ rows <->
       stored w l /\ Loan.isOverdue l = true /\ Loan.status l = LoanStatus.ACTIVE /\
       passesFilters filters l) /\
    StronglySorted byDaysOverdueDesc rows.
Proof.
  unfold OverdueService.getOverdueLoans. cbv zeta.
  match goal with |- context [prisma.loan_findMany ?f] =>
    destruct (loan_findMany_rows f w) as (rows & Hrun & Hrows & _) end.
  exists (OverdueService.orderBy_daysOverdue_desc rows).
  rewrite (bind_returned _ _ _ _ _ Hrun).
  destruct (orderBy_daysOverdue_desc_sorted rows) as [Hsorted Helem].
  split; [reflexivity|]. split; [|exact Hsorted].
  intros l. rewrite Helem, Hrows. unfold passesFilters.
  rewrite !andb_true_iff, LoanStatus_eqb_eq.
  destruct filters as [minDays maxDays minAmount]. cbn.
  split.
  - intros (((((Hover & Hst) & Hmin) & Hmax) & Hamt) & Hstored).
    split; [exact Hstored|]. split; [exact Hover|]. split; [exact Hst|].
    split; [|split].
    + intros n -> Hn. destruct (n =? 0)%Z eqn:E; [lia|]. lia.
    + intros n -> Hn. destruct (n =? 0)%Z eqn:E; [lia|]. lia.
    + intros a -> Ha. destruct (Qeq_bool a 0) eqn:E.
      * apply Qeq_bool_iff in E. contradiction.
      * now apply Qle_bool_iff.
  - intros (Hstored & Hover & Hst & Hmin & Hmax & Hamt).
    split; [|exact Hstored]. repeat split; try assumption.
    + destruct minDays as [n|]; [|reflexivity].
      destruct (n =? 0)%Z eqn:E; [reflexivity|]. apply Z.leb_le. apply Hmin; [reflexivity|lia].
    + destruct maxDays as [n|]; [|reflexivity].
      destruct (n =? 0)%Z eqn:E; [reflexivity|]. apply Z.leb_le. apply Hmax; [reflexivity|lia].
    + destruct minAmount as [a|]; [|reflexivity].
      destruct (Qeq_bool a 0) eqn:E; [reflexivity|]. apply Qle_bool_iff.
      apply Hamt; [reflexivity|]. intros Ha. apply Qeq_bool_iff in Ha. congruence.
Qed.

(** ** The sweep over a consistent table *)

Lemma sameOutsideOverdueSnapshot_refl (l : Loan.t) : sameOutsideOverdueSnapshot l l.
Proof. unfold sameOutsideOverdueSnapshot. repeat split. Qed.

Lemma sameOutsideOverdueSnapshot_trans (a b c : Loan.t) :
  sameOutsideOverdueSnapshot a b -> sameOutsideOverdueSnapshot b c ->
  sameOutsideOverdueSnapshot a c.
Proof.
  unfold sameOutsideOverdueSnapshot.
  intros (?&?&?&?&?&?&?&?&?&?&?&?&?&?&?&?&?&?&?&?&?&?&?)
         (?&?&?&?&?&?&?&?&?&?&?&?&?&?&?&?&?&?&?&?&?&?&?).
  repeat split; congruence.
Qed.

Lemma worldAt_wellKeyed (now : Z) (rows : list Loan.t) : wellKeyed (worldAt now rows).
Proof.
  intros k l Hl. unfold worldAt in Hl. cbn [loans] in Hl.
  apply elem_of_list_to_map_2 in Hl. apply list_elem_of_fmap in Hl as (x & [= -> ->] & _).
  reflexivity.
Qed.

Section SweepFrame.
Import OverdueService.
Variable tz : Z.

Lemma updateAllOverdueLoans_body_step (loan row : Loan.t) (counts : nat * nat) (w : World) :
  loans w !! Loan.id loan = Some row ->
  exists r w1 w',
    calculateOverdueStatus tz loan w = (Returned r, w1) /\
    updateAllOverdueLoans_body tz loan counts w
      = (Returned
           (if negb (Loan.isOverdue loan) && OverdueCalculationResult.isOverdue r
            then S (fst counts) else fst counts,
            if Loan.isOverdue loan && negb (OverdueCalculationResult.isOverdue r)
            then S (snd counts) else snd counts), w') /\
    loans w' = <[Loan.id loan := overdueRefreshed loan row r (clock w1 (ticks w1))]> (loans w) /\
    payments w' = payments w /\ console w' = console w.
Proof.
  intros Hl.
  destruct (calculateOverdueStatus_returns tz loan w)
    as (r & w1 & Hr & Hl1 & Hp1 & Hc1 & Ho1 & Hk1).
  exists r, w1. unfold updateAllOverdueLoans_body. cbv zeta.
  rewrite (bind_returned _ _ _ _ _ Hr). unfold overdueRefreshed.
  destruct (OverdueCalculationResult.isOverdue r && negb (Loan.isOverdue loan)).
  - unfold bind, new_Date, ret, prisma.loan_update. cbn [loans]. rewrite Hl1, Hl.
    eexists. split; [exact Hr|]. split; [reflexivity|]. cbn. auto.
  - unfold bind, ret, prisma.loan_update. rewrite Hl1, Hl.
    eexists. split; [exact Hr|]. split; [reflexivity|]. cbn. auto.
Qed.

Lemma sweep_frame (activeLoans : list Loan.t) :
  forall (counts : nat * nat) (w : World),
    (forall x, x ∈ activeLoans -> is_Some (loans w !! Loan.id x)) ->
    exists counts' w',
      for_of activeLoans (updateAllOverdueLoans_body tz) counts w = (Returned counts', w') /\
      (forall k, k ∉ map Loan.id activeLoans -> loans w' !! k = loans w !! k) /\
      (forall k l, loans w !! k = Some l ->
         exists l', loans w' !! k = Some l' /\ sameOutsideOverdueSnapshot l l') /\
      (forall k, loans w !! k = None -> loans w' !! k = None) /\
      payments w' = payments w /\ console w' = console w /\
      (fst counts' + snd counts' <= fst counts + snd counts + length activeLoans)%nat.
Proof.
  induction activeLoans as [|x rest IH]; intros counts w Hstored.
  - exists counts, w. split; [reflexivity|]. split; [reflexivity|].
    split; [intros k l Hl; exists l; split; [exact Hl|apply sameOutsideOverdueSnapshot_refl]|].
    split; [auto|]. split; [reflexivity|]. split; [reflexivity|]. cbn. lia.
  - destruct (Hstored x ltac:(left)) as [row Hx].
    destruct (updateAllOverdueLoans_body_step x row counts w Hx)
      as (r & w1 & w2 & _ & Hrun & Hl2 & Hp2 & Hc2).
    match type of Hrun with _ = (Returned ?c, _) => set (counts1 := c) in * end.
    destruct (IH counts1 w2) as (counts' & w' & Hrest & Hframe & Hsame & Hnone & Hp & Hc & Hn).
    { intros y Hy. rewrite Hl2. apply lookup_insert_is_Some'. right.
      apply Hstored. now right. }
    exists counts', w'. cbn [for_of]. rewrite (bind_returned _ _ _ _ _ Hrun).
    split; [exact Hrest|]. split; [|split; [|split; [|split; [|split]]]].
    + intros k Hk. cbn [map] in Hk. apply not_elem_of_cons in Hk as [Hk1 Hk2].
      rewrite (Hframe k Hk2), Hl2. now rewrite lookup_insert_ne.
    + intros k l Hl. destruct (decide (Loan.id x = k)) as [<-|Hne].
      * assert (l = row) as -> by congruence.
        destruct (Hsame (Loan.id x) (overdueRefreshed x row r (clock w1 (ticks w1))))
          as (l' & Hl' & Hs); [rewrite Hl2; apply lookup_insert_eq|].
        exists l'. split; [exact Hl'|].
        eapply sameOutsideOverdueSnapshot_trans; [|exact Hs].
        apply (overdueRefreshed_written x row r).
      * apply Hsame. rewrite Hl2. now rewrite lookup_insert_ne.
    + intros k Hk. apply Hnone. rewrite Hl2. rewrite lookup_insert_ne; [exact Hk|].
      intros <-. congruence.
    + congruence.
    + congruence.
    + subst counts1. cbn [fst snd length] in *.
      destruct (Loan.isOverdue x), (OverdueCalculationResult.isOverdue r); cbn in *; lia.
Qed.
End SweepFrame.

(** On a table whose rows sit under their own ids [updateAllOverdueLoans]
    always returns.  It processes exactly the stored ACTIVE loans, writes
    nothing but the overdue snapshot of those (a loan that is not ACTIVE
    keeps its row as it is), adds and removes no row, stores no payment,
    logs nothing, and its two transition counts together never exceed
    [totalProcessed]. *)
Theorem updateAllOverdueLoans_touches_active_only (tz : Z) (w : World) :
  wellKeyed w ->
  exists activeLoans result w',
    OverdueService.updateAllOverdueLoans tz w = (Returned result, w') /\
    (forall l, l ∈ activeLoans <-> Loan.status l = LoanStatus.ACTIVE /\ stored w l) /\
    NoDup (map Loan.id activeLoans) /\
    SweepResult.totalProcessed result = length activeLoans /\
    (SweepResult.newOverdueCount result + SweepResult.clearedOverdueCount result
       <= SweepResult.totalProcessed result)%nat /\
    (forall k l, loans w !! k = Some l ->
       exists l', loans w' !! k = Some l' /\ sameOutsideOverdueSnapshot l l' /\
                  (Loan.status l <> LoanStatus.ACTIVE -> l' = l)) /\
    (forall k, loans w !! k = None -> loans w' !! k = None) /\
    payments w' = payments w /\ console w' = console w /\
    wellKeyed w'.
Proof.
  intros Hkeyed. unfold OverdueService.updateAllOverdueLoans.
  match goal with |- context [prisma.loan_findMany ?f] =>
    destruct (loan_findMany_rows f w) as (rows & Hfind & Hrows & Hnodup) end.
  assert (forall x, x ∈ rows -> loans w !! Loan.id x = Some x) as Hrow.
  { intros x Hx. apply Hrows in Hx as [_ [k Hk]]. now rewrite (Hkeyed k x Hk). }
  destruct (sweep_frame tz rows (O, O) w) as (counts & w' & Hrun & Hframe & Hsame & Hnone & Hp & Hc & Hn).
  { intros x Hx. rewrite (Hrow x Hx). eauto. }
  exists rows. eexists. exists w'.
  rewrite (bind_returned _ _ _ _ _ Hfind). unfold OverdueService.updateAllOverdueLoans_from.
  rewrite (bind_returned _ _ _ _ _ Hrun).
  split; [reflexivity|]. split.
  { intros l. rewrite Hrows, LoanStatus_eqb_eq. tauto. }
  split; [now apply Hnodup|]. split; [reflexivity|]. split; [cbn in *; lia|].
  split; [|split; [exact Hnone|split; [exact Hp|split; [exact Hc|]]]].
  - intros k l Hl. destruct (Hsame k l Hl) as (l' & Hl' & Hs).
    exists l'. split; [exact Hl'|]. split; [exact Hs|].
    intros Hst. assert (loans w' !! k = loans w !! k) as Heq.
    { apply Hframe. intros Hin. apply list_elem_of_fmap in Hin as (x & -> & Hx).
      pose proof (Hrow x Hx) as Hxx. assert (l = x) as -> by congruence.
      apply Hrows in Hx as [Hact _]. apply LoanStatus_eqb_eq in Hact. contradiction. }
    congruence.
  - intros k l' Hl'. destruct (loans w !! k) as [l|] eqn:Hl.
    + destruct (Hsame k l Hl) as (l'' & Hl'' & Hs).
      assert (l'' = l') as -> by congruence.
      destruct Hs as (Hid & _). rewrite Hid. now apply Hkeyed.
    + rewrite (Hnone k Hl) in Hl'. discriminate.
Qed.

Lemma updateAllOverdueLoans_touches_active_only_witness :
  exists result w',
    OverdueService.updateAllOverdueLoans 0
      (worldAt (JsDate.utc 2024 4 1 12 0) [paidLoan]) = (Returned result, w') /\
    payments w' = [] /\ console w' = [].
Proof.
  destruct (updateAllOverdueLoans_touches_active_only 0
              (worldAt (JsDate.utc 2024 4 1 12 0) [paidLoan]))
    as (rows & result & w' & Hrun & _ & _ & _ & _ & _ & _ & Hp & Hc & _).
  - apply worldAt_wellKeyed.
  - exists result, w'. split; [exact Hrun|]. split; [exact Hp|exact Hc].
Defined.

(** ** One run of the scheduled job *)

Lemma checkAndMarkDefaulted_marks (loanId : string) (threshold : Z) (l : Loan.t) (w : World) :
  loans w !! loanId = Some l ->
  Loan.isOverdue l = true ->
  (threshold <= Loan.daysOverdue l)%Z ->
  OverdueService.checkAndMarkDefaulted loanId threshold w
    = (Returned true,
       mkWorld (<[loanId := Loan.update l [Loan.set_status LoanStatus.DEFAULTED]]> (loans w))
               (payments w) (customers w) (console w) (clock w) (ticks w)).
Proof.
  intros Hl Hover Hdays.
  unfold OverdueService.checkAndMarkDefaulted, prisma.loan_findUnique, prisma.loan_update,
    bind, ret.
  rewrite Hl, Hover. cbn [negb].
  assert ((threshold <=? Loan.daysOverdue l)%Z = true) as -> by lia.
  now rewrite Hl.
Qed.

(** The loop of the job over the loans to escalate. *)
Lemma escalation_loop (rows : list Loan.t) :
  forall (n : nat) (w : World),
    (forall x, x ∈ rows ->
       exists l, loans w !! Loan.id x = Some l /\ Loan.isOverdue l = true /\
                 (90 <= Loan.daysOverdue l)%Z) ->
    exists w',
      for_of rows
        (fun loan defaultedCount =>
           bind (OverdueService.checkAndMarkDefaulted (Loan.id loan) 90)
                (fun wasDefaulted : bool =>
                   ret (if wasDefaulted then S defaultedCount else defaultedCount)))
        n w = (Returned (n + length rows)%nat, w') /\
      (forall k l, loans w !! k = Some l ->
         loans w' !! k = Some l \/
         loans w' !! k = Some (Loan.update l [Loan.set_status LoanStatus.DEFAULTED])) /\
      (forall x, x ∈ rows ->
         exists l', loans w' !! Loan.id x = Some l' /\ Loan.status l' = LoanStatus.DEFAULTED) /\
      (forall k, loans w !! k = None -> loans w' !! k = None) /\
      payments w' = payments w /\ console w' = console w.
Proof.
  induction rows as [|x rest IH]; intros n w Hrows.
  - exists w. cbn. rewrite Nat.add_0_r. split; [reflexivity|]. split; [auto|].
    split; [intros x Hx; inversion Hx|]. auto.
  - destruct (Hrows x ltac:(left)) as (l & Hl & Hover & Hdays).
    pose proof (checkAndMarkDefaulted_marks (Loan.id x) 90 l w Hl Hover Hdays) as Hmark.
    set (w1 := mkWorld (<[Loan.id x := Loan.update l [Loan.set_status LoanStatus.DEFAULTED]]>
                          (loans w))
                       (payments w) (customers w) (console w) (clock w) (ticks w)) in *.
    destruct (IH (S n) w1) as (w' & Hrun & Heither & Hdone & Hnone & Hp & Hc).
    { intros y Hy. destruct (Hrows y ltac:(now right)) as (ly & Hly & Hoy & Hdy).
      destruct (decide (Loan.id x = Loan.id y)) as [Heq|Hne].
      - exists (Loan.update l [Loan.set_status LoanStatus.DEFAULTED]).
        rewrite <- Heq. split; [apply lookup_insert_eq|]. split; [exact Hover|exact Hdays].
      - exists ly. split; [|auto]. cbn [w1 loans]. now rewrite lookup_insert_ne. }
    exists w'. cbn [for_of].
    rewrite (bind_returned _ _ w w1 (S n)) by (now rewrite (bind_returned _ _ _ _ _ Hmark)).
    split; [rewrite Hrun; cbn [length]; do 2 f_equal; lia|].
    split; [|split; [|split; [|split]]].
    + intros k lk Hk. destruct (decide (Loan.id x = k)) as [<-|Hne].
      * assert (lk = l) as -> by congruence.
        destruct (Heither (Loan.id x) (Loan.update l [Loan.set_status LoanStatus.DEFAULTED]))
          as [H|H]; [apply lookup_insert_eq| |]; right; exact H.
      * apply Heither. cbn [w1 loans]. now rewrite lookup_insert_ne.
    + intros y Hy. apply elem_of_cons in Hy as [->|Hy]; [|now apply Hdone].
      destruct (Heither (Loan.id x) (Loan.update l [Loan.set_status LoanStatus.DEFAULTED]))
        as [H|H]; [apply lookup_insert_eq| |]; eexists; (split; [exact H|reflexivity]).
    + intros k Hk. apply Hnone. cbn [w1 loans]. rewrite lookup_insert_ne; [exact Hk|].
      intros <-. congruence.
    + exact Hp.
    + exact Hc.
Qed.

Lemma updateAllOverdueLoans_keeps_rows (tz : Z) (w : World) :
  wellKeyed w ->
  exists result w',
    OverdueService.updateAllOverdueLoans tz w = (Returned result, w') /\
    (forall k l, loans w !! k = Some l ->
       exists l', loans w' !! k = Some l' /\ sameOutsideOverdueSnapshot l l') /\
    (forall k, loans w !! k = None -> loans w' !! k = None) /\
    payments w' = payments w /\ wellKeyed w'.
Proof.
  intros Hkeyed. unfold OverdueService.updateAllOverdueLoans.
  match goal with |- context [prisma.loan_findMany ?f] =>
    destruct (loan_findMany_rows f w) as (active & Hfind & Hactive & _) end.
  destruct (sweep_frame tz active (O, O) w)
    as (counts & w1 & Hsweep & _ & Hsame & Hnone & Hp1 & _).
  { intros x Hx. apply Hactive in Hx as [_ [k Hk]]. rewrite (Hkeyed k x Hk). eauto. }
  eexists _, w1. rewrite (bind_returned _ _ _ _ _ Hfind).
  unfold OverdueService.updateAllOverdueLoans_from. rewrite (bind_returned _ _ _ _ _ Hsweep).
  split; [reflexivity|]. split; [exact Hsame|]. split; [exact Hnone|]. split; [exact Hp1|].
  intros k l' Hl'. destruct (loans w !! k) as [l|] eqn:Hl.
  - destruct (Hsame k l Hl) as (l'' & Hl'' & Hid & _).
    assert (l'' = l') as -> by congruence. rewrite Hid. now apply Hkeyed.
  - rewrite (Hnone k Hl) in Hl'. discriminate.
Qed.

Lemma getOverdueLoans_ninety (w : World) :
  exists rows,
    OverdueService.getOverdueLoans (OverdueFilters.mk (Some 90%Z) None None) w
      = (Returned rows, w) /\
    (forall l, l ∈ rows <->
       stored w l /\ Loan.isOverdue l = true /\ Loan.status l = LoanStatus.ACTIVE /\
       (90 <= Loan.daysOverdue l)%Z).
Proof.
  unfold OverdueService.getOverdueLoans. cbv zeta.
  match goal with |- context [prisma.loan_findMany ?f] =>
    destruct (loan_findMany_rows f w) as (rows & Hrun & Hrows & _) end.
  exists (OverdueService.orderBy_daysOverdue_desc rows).
  rewrite (bind_returned _ _ _ _ _ Hrun).
  destruct (orderBy_daysOverdue_desc_sorted rows) as [_ Helem].
  split; [reflexivity|]. intros l. rewrite Helem, Hrows. cbn.
  rewrite !andb_true_iff, LoanStatus_eqb_eq, Z.leb_le. tauto.
Qed.

(** After one run of the scheduled job on a table whose rows sit under their
    own ids, no ACTIVE loan is left that is stored as overdue by 90 days or
    more: each of them has been marked DEFAULTED.  The run never throws,
    adds and removes no loan, stores no payment, and leaves every balance as
    it was. *)
Theorem overdueCheckJob_escalates_every_long_overdue_loan (tz : Z) (w : World) :
  wellKeyed w ->
  exists w',
    overdueJob.startOverdueCheckJob_callback tz w = (Returned tt, w') /\
    (forall k l', loans w' !! k = Some l' ->
       Loan.status l' = LoanStatus.ACTIVE -> Loan.isOverdue l' = true ->
       (Loan.daysOverdue l' < 90)%Z) /\
    (forall k l, loans w !! k = Some l ->
       exists l', loans w' !! k = Some l' /\
                  Loan.outstandingBalance l' = Loan.outstandingBalance l /\
                  Loan.totalAmountPaid l' = Loan.totalAmountPaid l) /\
    (forall k, loans w !! k = None -> loans w' !! k = None) /\
    payments w' = payments w.
Proof.
  intros Hkeyed. unfold overdueJob.startOverdueCheckJob_callback.
  rewrite (bind_returned (log _) _ w _ tt eq_refl).
  set (w0 := mkWorld (loans w) (payments w) (customers w) _ (clock w) (ticks w)).
  destruct (updateAllOverdueLoans_keeps_rows tz w0 Hkeyed)
    as (result & w1 & Hsweep & Hsame & Hnone & Hp1 & Hkeyed1).
  set (w2 := mkWorld (loans w1) (payments w1) (customers w1)
                     (console w1 ++ [console_log "Overdue check completed:"]) (clock w1)
                     (S (ticks w1))).
  destruct (getOverdueLoans_ninety w2) as (late & Hlate & Hlaterows).
  destruct (escalation_loop late O w2)
    as (w3 & Hloop & Heither & Hdone & Hnone3 & Hp3 & _).
  { intros x Hx. apply Hlaterows in Hx as ((k & Hk) & Hover & _ & Hdays).
    exists x. cbn [w2 loans] in *. rewrite (Hkeyed1 k x Hk). auto. }
  match goal with |- context [try_catch ?m ?h] =>
    assert (exists w', m w0 = (Returned tt, w') /\
                       loans w' = loans w3 /\ payments w' = payments w3)
      as (w' & Hrun & Hl' & Hp') end.
  { rewrite (bind_returned _ _ _ _ _ Hsweep), bind_new_Date.
    rewrite (bind_returned (log _) _ (snd (new_Date w1)) w2 tt eq_refl).
    rewrite (bind_returned _ _ _ _ _ Hlate), (bind_returned _ _ _ _ _ Hloop).
    destruct (0 <? 0 + length late)%nat.
    - eexists. split; [reflexivity|]. split; reflexivity.
    - exists w3. split; [reflexivity|]. split; reflexivity. }
  apply (try_catch_returned _ (fun error => log (console_error "Error in overdue check job:" error)))
    in Hrun.
  exists w'. split; [exact Hrun|]. rewrite Hl', Hp'.
  split; [|split; [|split]].
  - intros k l' Hk Hst Hover.
    destruct (Z_lt_le_dec (Loan.daysOverdue l') 90) as [Hlt|Hge]; [exact Hlt|exfalso].
    destruct (loans w2 !! k) as [l|] eqn:Hl; [|rewrite (Hnone3 k Hl) in Hk; discriminate].
    assert (l' = l) as ->.
    { destruct (Heither k l Hl) as [H|H]; rewrite H in Hk; injection Hk as <-;
        [reflexivity|discriminate]. }
    assert (l ∈ late) as Hin by (apply Hlaterows; unfold stored; eauto).
    destruct (Hdone l Hin) as (l'' & Hl'' & Hst'').
    cbn [w2 loans] in Hl. rewrite (Hkeyed1 k l Hl) in Hl''. congruence.
  - intros k l Hl. destruct (Hsame k l Hl) as (l1 & Hl1 & Hs).
    destruct Hs as (_ & _ & _ & _ & _ & _ & _ & Hbal & Hpaid & _).
    destruct (Heither k l1 Hl1) as [H|H]; eexists; (split; [exact H|]); cbn; auto.
  - intros k Hk. apply Hnone3. cbn [w2 loans]. now apply Hnone.
  - rewrite Hp3. cbn [w2 payments]. exact Hp1.
Qed.

Lemma overdueCheckJob_escalates_every_long_overdue_loan_witness :
  exists l' w',
    overdueJob.startOverdueCheckJob_callback 0 (worldAt (JsDate.utc 2024 6 20 12 0) [paidLoan])
      = (Returned tt, w') /\
    loans w' !! "loan-1" = Some l' /\
    Loan.status l' = LoanStatus.DEFAULTED.
Proof.
  destruct (overdueCheckJob_escalates_every_long_overdue_loan 0
              (worldAt (JsDate.utc 2024 6 20 12 0) [paidLoan]))
    as (w' & Hrun & _).
  - apply worldAt_wellKeyed.
  - vm_compute in Hrun. injection Hrun as <-.
    eexists _, _. split; [vm_compute; reflexivity|]. split; vm_compute; reflexivity.
Defined.

(** ** Loan-to-value *)



(** ** Pagination *)

Section Paging.
Import paging.
Local Open Scope Z_scope.

(** Whatever the query holds, [getPaginationParams] yields a page of at
    least 1 and a limit between 1 and 100.  A page of 1 or more and a limit
    between 1 and 100 are passed on unchanged; a page that is missing, not
    a number or 0 becomes 1, and a limit that is missing, not a number or 0
    becomes 10. *)
Theorem getPaginationParams_bounds (page limit : option Z) :
  1 <= fst (getPaginationParams page limit) /\
  1 <= snd (getPaginationParams page limit) <= 100 /\
  (forall p, page = Some p -> 1 <= p -> fst (getPaginationParams page limit) = p) /\
  (forall n, limit = Some n -> 1 <= n <= 100 -> snd (getPaginationParams page limit) = n) /\
  (page = None \/ page = Some 0 -> fst (getPaginationParams page limit) = 1) /\
  (limit = None \/ limit = Some 0 -> snd (getPaginationParams page limit) = 10).
Proof.
  unfold getPaginationParams, or_default. cbn [fst snd].
  split; [lia|]. split; [lia|]. split; [|split; [|split]].
  - intros p -> Hp. destruct (p =? 0) eqn:E; lia.
  - intros n -> Hn. destruct (n =? 0) eqn:E; lia.
  - intros [->| ->]; reflexivity.
  - intros [->| ->]; reflexivity.
Qed.

Lemma Math_ceil_div_bounds (a b : Z) :
  0 < b -> b * (Math_ceil_div a b - 1) < a <= b * Math_ceil_div a b.
Proof.
  intros Hb. unfold Math_ceil_div.
  pose proof (Z.mul_div_le (- a) b Hb). pose proof (Z.mul_succ_div_gt (- a) b Hb). lia.
Qed.

(** For a limit of at least 1, [totalPages] is the least number of pages
    that hold [total] rows; [hasNext] says exactly that rows remain beyond
    page [page], that is beyond the first [page * limit] rows, and
    [hasPrevious] that the page is not the first. *)
Theorem calculatePagination_covers (page limit total : Z) :
  1 <= limit -> 0 <= total ->
  let p := calculatePagination page limit total in
  0 <= Pagination.totalPages p /\
  limit * (Pagination.totalPages p - 1) < total <= limit * Pagination.totalPages p /\
  (Pagination.hasNext p = true <-> page * limit < total) /\
  (Pagination.hasPrevious p = true <-> 1 < page) /\
  (total = 0 -> Pagination.totalPages p = 0).
Proof.
  intros Hlimit Htotal. cbn.
  pose proof (Math_ceil_div_bounds total limit ltac:(lia)) as [Hlo Hhi].
  set (n := Math_ceil_div total limit) in *.
  split; [nia|]. split; [lia|]. split; [|split].
  - rewrite Z.ltb_lt. split; intros H; nia.
  - apply Z.ltb_lt.
  - intros ->. nia.
Qed.

Lemma calculatePagination_covers_witness :
  Pagination.totalPages (calculatePagination 3 10 25) = 3 /\
  Pagination.hasNext (calculatePagination 2 10 25) = true.
Proof.
  destruct (calculatePagination_covers 2 10 25 ltac:(lia) ltac:(lia)) as (_ & _ & Hnext & _).
  split; [reflexivity|]. apply Hnext. lia.
Defined.
End Paging.

(** ** Overdue statistics *)

Lemma bucket_partition (rows : list Loan.t) :
  let count (where_ : Loan.t -> bool) := length (filter (fun l => where_ l = true) rows) in
  let late (lo hi : Z) (l : Loan.t) :=
    statistics.overdueActive l && ((lo <=? Loan.daysOverdue l) && (Loan.daysOverdue l <? hi))%Z in
  let b0 := count (late 0 30)%Z in
  let b1 := count (late 30 60)%Z in
  let b2 := count (late 60 90)%Z in
  let b3 := count (fun l => statistics.overdueActive l && (90 <=? Loan.daysOverdue l)%Z) in
  (b0 + b1 + b2 + b3 <= count statistics.overdueActive)%nat /\
  ((forall l, l ∈ rows -> statistics.overdueActive l = true -> (0 <= Loan.daysOverdue l)%Z) ->
   (b0 + b1 + b2 + b3 = count statistics.overdueActive)%nat).
Proof.
  cbv zeta. induction rows as [|x rows [IHle IHeq]].
  - split; [reflexivity|]. intros _. reflexivity.
  - rewrite !filter_cons.
    assert ((forall l, l ∈ x :: rows ->
               statistics.overdueActive l = true -> (0 <= Loan.daysOverdue l)%Z) ->
            (forall l, l ∈ rows ->
               statistics.overdueActive l = true -> (0 <= Loan.daysOverdue l)%Z) /\
            (statistics.overdueActive x = true -> (0 <= Loan.daysOverdue x)%Z)) as Hsplit.
    { intros H. split; [intros l Hl; apply H; now right|apply H; left]. }
    destruct (statistics.overdueActive x) eqn:Hx;
      destruct (Z.leb_spec 0 (Loan.daysOverdue x)), (Z.ltb_spec (Loan.daysOverdue x) 30),
               (Z.leb_spec 30 (Loan.daysOverdue x)), (Z.ltb_spec (Loan.daysOverdue x) 60),
               (Z.leb_spec 60 (Loan.daysOverdue x)), (Z.ltb_spec (Loan.daysOverdue x) 90),
               (Z.leb_spec 90 (Loan.daysOverdue x));
      try lia; cbn [andb];
      repeat (destruct (decide _) as [?|?]; try discriminate; try congruence);
      cbn [length];
      (split; [lia|]); intros Hdays; destruct (Hsplit Hdays) as [Hrest Hhead];
      specialize (IHeq Hrest); try lia; specialize (Hhead eq_refl); lia.
Qed.

(** [getOverdueStatistics] reads only.  Its four buckets never count more
    loans than [totalOverdueLoans], and they add up to it exactly when no
    overdue ACTIVE loan carries a negative [daysOverdue]: each such loan
    falls in one bucket and only one.  With no overdue ACTIVE loan all
    figures are 0. *)
Theorem getOverdueStatistics_buckets_partition (w : World) :
  exists s,
    statistics.getOverdueStatistics w = (Returned s, w) /\
    (OverdueStatistics.lessThan30Days s + OverdueStatistics.from30To60Days s +
     OverdueStatistics.from60To90Days s + OverdueStatistics.moreThan90Days s
       <= OverdueStatistics.totalOverdueLoans s)%nat /\
    ((forall l, stored w l -> Loan.isOverdue l = true ->
                Loan.status l = LoanStatus.ACTIVE -> (0 <= Loan.daysOverdue l)%Z) ->
     (OverdueStatistics.lessThan30Days s + OverdueStatistics.from30To60Days s +
      OverdueStatistics.from60To90Days s + OverdueStatistics.moreThan90Days s
        = OverdueStatistics.totalOverdueLoans s)%nat) /\
    (OverdueStatistics.totalOverdueLoans s = O ->
       OverdueStatistics.totalOverdueAmount s = 0%Q /\
       OverdueStatistics.totalPenalties s = 0%Q /\
       OverdueStatistics.averageDaysOverdue s = 0%Z).
Proof.
  eexists. split; [reflexivity|].
  cbn [OverdueStatistics.lessThan30Days OverdueStatistics.from30To60Days
       OverdueStatistics.from60To90Days OverdueStatistics.moreThan90Days
       OverdueStatistics.totalOverdueLoans OverdueStatistics.totalOverdueAmount
       OverdueStatistics.totalPenalties OverdueStatistics.averageDaysOverdue loans].
  pose proof (bucket_partition (map snd (map_to_list (loans w)))) as [Hle Heq].
  split; [exact Hle|]. split.
  - intros Hdays. apply Heq. intros l Hl Hact.
    unfold statistics.overdueActive in Hact. apply andb_true_iff in Hact as [Hover Hst].
    apply LoanStatus_eqb_eq in Hst. apply Hdays; [|exact Hover|exact Hst].
    apply list_elem_of_fmap in Hl as ([k l'] & -> & Hin).
    apply elem_of_map_to_list in Hin. exists k. exact Hin.
  - intros Hzero. apply length_zero_iff_nil in Hzero. rewrite Hzero. repeat split.
Qed.

Lemma getOverdueStatistics_buckets_partition_witness :
  exists s,
    statistics.getOverdueStatistics (worldAt (JsDate.utc 2024 4 1 12 0) [lapsedLoan])
      = (Returned s, worldAt (JsDate.utc 2024 4 1 12 0) [lapsedLoan]) /\
    OverdueStatistics.totalOverdueLoans s = 1%nat /\
    (OverdueStatistics.lessThan30Days s + OverdueStatistics.from30To60Days s +
     OverdueStatistics.from60To90Days s + OverdueStatistics.moreThan90Days s = 1)%nat.
Proof.
  destruct (getOverdueStatistics_buckets_partition
              (worldAt (JsDate.utc 2024 4 1 12 0) [lapsedLoan]))
    as (s & Hrun & _ & Hsum & _).
  assert (OverdueStatistics.totalOverdueLoans s = 1%nat) as Hone.
  { vm_compute in Hrun. injection Hrun as <-. reflexivity. }
  exists s. split; [exact Hrun|]. split; [exact Hone|].
  rewrite <- Hone. apply Hsum.
  intros l [k Hk] _ _. apply elem_of_list_to_map_2 in Hk.
  apply list_elem_of_fmap in Hk as (x & [= -> ->] & Hx).
  apply list_elem_of_singleton in Hx as ->. vm_compute. discriminate.
Defined.

(** ** One condition, three answers: a loan that is not stored *)

(** Asked about a loan identifier that is not stored, the routes disagree.
    The refresh route answers 500: the service throws a plain error, which
    [errorHandler] does not tell apart, and the text "Loan not found" is shown
    in development only.  Approving, rejecting and disbursing answer 404
    "Record not found", through Prisma's own error.  The default check
    answers 200 with [wasMarkedDefaulted] false.  None of them changes a loan
    or payment row. *)
Theorem unknown_loan_is_answered_500_404_or_200
    (tz : Z) (development : bool) (id userId remarks : string)
    (note : option string) (thresholdDays : option Z) (w : World) :
  loans w !! id = None ->
  let notFound :=
    ErrorResponse.mk 404 "Record not found" "The requested record does not exist" in
  (exists w',
     middleware.asyncHandler development (overdueRoutes.updateLoan tz id) w
       = (Returned (inr (ErrorResponse.mk 500 "Internal server error"
                           (if development then "Loan not found"
                            else "Something went wrong"))), w') /\
     loans w' = loans w /\ payments w' = payments w) /\
  (exists w',
     middleware.asyncHandler development (loans.approveLoan id userId note) w
       = (Returned (inr notFound), w') /\
     loans w' = loans w /\ payments w' = payments w) /\
  (exists w',
     middleware.asyncHandler development (loans.rejectLoan id remarks) w
       = (Returned (inr notFound), w') /\
     loans w' = loans w /\ payments w' = payments w) /\
  (exists w',
     middleware.asyncHandler development (loans.disburseLoan id userId) w
       = (Returned (inr notFound), w') /\
     loans w' = loans w /\ payments w' = payments w) /\
  middleware.asyncHandler development (overdueRoutes.checkDefault id thresholdDays) w
    = (Returned (inl (Response.mk 200 true "Loan does not meet criteria for default status"
                        (Some (false, default 90%Z thresholdDays)))), w).
Proof.
  intros Hl notFound. repeat split.
  - eexists. split; [|split].
    + unfold middleware.asyncHandler, overdueRoutes.updateLoan, try_catch, bind at 1 2.
      rewrite (updateLoanOverdueStatus_not_found tz id w Hl).
      unfold middleware.errorHandler, bind, log, ret. reflexivity.
    + reflexivity.
    + reflexivity.
  - eexists. split; [|split].
    + unfold middleware.asyncHandler, loans.approveLoan, try_catch, bind, new_Date,
        prisma.loan_update, middleware.errorHandler, log, ret.
      cbn [loans]. rewrite Hl. reflexivity.
    + reflexivity.
    + reflexivity.
  - eexists. split; [|split].
    + unfold middleware.asyncHandler, loans.rejectLoan, try_catch, bind,
        prisma.loan_update, middleware.errorHandler, log, ret.
      rewrite Hl. reflexivity.
    + reflexivity.
    + reflexivity.
  - eexists. split; [|split].
    + unfold middleware.asyncHandler, loans.disburseLoan, try_catch, bind, new_Date,
        prisma.loan_update, middleware.errorHandler, log, ret.
      cbn [loans]. rewrite Hl. reflexivity.
    + reflexivity.
    + reflexivity.
  - unfold middleware.asyncHandler, overdueRoutes.checkDefault,
      OverdueService.checkAndMarkDefaulted, try_catch, bind, prisma.loan_findUnique, ret.
    rewrite Hl. reflexivity.
Qed.

Lemma unknown_loan_is_answered_500_404_or_200_witness :
  (exists w',
     middleware.asyncHandler false (overdueRoutes.updateLoan 0 "loan-7")
       (worldAt 0 [paidLoan])
       = (Returned (inr (ErrorResponse.mk 500 "Internal server error"
                           "Something went wrong")), w') /\
     loans w' = loans (worldAt 0 [paidLoan])) /\
  (exists w',
     middleware.asyncHandler false (loans.rejectLoan "loan-7" "duplicate")
       (worldAt 0 [paidLoan])
       = (Returned (inr (ErrorResponse.mk 404 "Record not found"
                           "The requested record does not exist")), w') /\
     loans w' = loans (worldAt 0 [paidLoan])) /\
  middleware.asyncHandler false (overdueRoutes.checkDefault "loan-7" None)
    (worldAt 0 [paidLoan])
    = (Returned (inl (Response.mk 200 true "Loan does not meet criteria for default status"
                        (Some (false, 90%Z)))), worldAt 0 [paidLoan]).
Proof.
  destruct (unknown_loan_is_answered_500_404_or_200 0 false "loan-7" "user-1" "duplicate"
              None None (worldAt 0 [paidLoan]))
    as ((w1 & H1 & L1 & _) & _ & (w3 & H3 & L3 & _) & _ & H5).
  - vm_compute. reflexivity.
  - split; [exists w1; split; [exact H1|exact L1]|].
    split; [exists w3; split; [exact H3|exact L3]|exact H5].
Defined.

(** ** The balance repair script *)

Lemma paidTotal_payments (w w' : World) (loanId : string) :
  payments w' = payments w -> paidTotal w' loanId = paidTotal w loanId.
Proof. unfold paidTotal. now intros ->. Qed.

Lemma repaired_payments (w w' : World) (l : Loan.t) :
  payments w' = payments w -> repaired w' l = repaired w l.
Proof. intros H. unfold repaired. now rewrite (paidTotal_payments w w' _ H). Qed.

Lemma updateLoanBalances_body_step (loan : Loan.t) (w : World) :
  loans w !! Loan.id loan = Some loan ->
  exists w',
    migration.updateLoanBalances_body loan tt w = (Returned tt, w') /\
    loans w' = <[Loan.id loan := repaired w loan]> (loans w) /\
    payments w' = payments w.
Proof.
  intros Hl. eexists. split; [|split].
  - unfold migration.updateLoanBalances_body, prisma.payment_findMany, prisma.loan_update,
      bind, log, ret. rewrite Hl. reflexivity.
  - reflexivity.
  - reflexivity.
Qed.

Lemma updateLoanBalances_loop (rows : list Loan.t) : forall w : World,
  NoDup (map Loan.id rows) ->
  (forall l, l ∈ rows -> loans w !! Loan.id l = Some l) ->
  exists w',
    for_of rows migration.updateLoanBalances_body tt w = (Returned tt, w') /\
    payments w' = payments w /\
    forall k, loans w' !! k =
              if bool_decide (k ∈ map Loan.id rows) then repaired w <$> loans w !! k
              else loans w !! k.
Proof.
  induction rows as [|loan rows IH]; intros w Hnd Hrows.
  - exists w. split; [reflexivity|]. split; [reflexivity|]. intros k. reflexivity.
  - cbn [map] in Hnd. apply NoDup_cons in Hnd as [Hfresh Hnd].
    destruct (updateLoanBalances_body_step loan w) as (w1 & Hstep & Hloans1 & Hpay1).
    { apply Hrows. left. }
    destruct (IH w1 Hnd) as (w' & Hrun & Hpay & Hloans).
    { intros l Hl. rewrite Hloans1, lookup_insert_ne.
      - apply Hrows. now right.
      - intros Heq. apply Hfresh. rewrite Heq. apply list_elem_of_fmap. eauto. }
    exists w'. split; [|split].
    + cbn [for_of]. rewrite (bind_returned _ _ _ _ _ Hstep). exact Hrun.
    + now rewrite Hpay.
    + intros k. rewrite Hloans, Hloans1. cbn [map].
      destruct (decide (k = Loan.id loan)) as [->|Hne].
      * rewrite (bool_decide_eq_false_2 _ Hfresh), lookup_insert_eq.
        rewrite bool_decide_eq_true_2 by left.
        rewrite (Hrows loan) by left. reflexivity.
      * rewrite lookup_insert_ne by congruence.
        assert (repaired w1 <$> loans w !! k = repaired w <$> loans w !! k) as ->.
        { destruct (loans w !! k) as [l|]; [|reflexivity].
          change (Some (repaired w1 l) = Some (repaired w l)).
          now rewrite (repaired_payments w w1 l Hpay1). }
        destruct (decide (k ∈ map Loan.id rows)) as [Hin|Hout].
        -- rewrite !bool_decide_eq_true_2; [reflexivity|now right|exact Hin].
        -- rewrite !bool_decide_eq_false_2; [reflexivity| |exact Hout].
           intros [?|?]%elem_of_cons; [congruence|contradiction].
Qed.

(** On a store keyed by the loans' identifiers the repair script runs to the
    end and rewrites every loan row, whatever it held: [totalAmountPaid]
    becomes the sum of the loan's COMPLETED EMI, partial and closure payments
    and [outstandingBalance] the principal less that sum, or 0 if the sum is
    larger.  No other column and no payment row changes, and the books are
    in step with the payment rows afterwards. *)
Theorem updateLoanBalances_repairs_every_loan (w : World) :
  wellKeyed w ->
  exists w',
    migration.updateLoanBalances w = (Returned tt, w') /\
    loans w' = repaired w <$> loans w /\
    payments w' = payments w /\
    reconciled w'.
Proof.
  intros Hkeyed.
  destruct (loan_findMany_rows (fun _ => true) w) as (rows & Hfind & Hrows & Hnd).
  set (w0 := mkWorld (loans w) (payments w) (customers w)
               ((console w ++ [console_log "Updating outstanding balances for existing loans..."])
                ++ [console_log ("Found " +:+ pretty (length rows) +:+ " loans to update")])
               (clock w) (ticks w)).
  destruct (updateLoanBalances_loop rows w0 (Hnd Hkeyed)) as (w1 & Hloop & Hpay & Hloans).
  { intros l Hl. apply Hrows in Hl as [_ [k Hk]]. cbn [w0 loans].
    now rewrite (Hkeyed k l Hk). }
  assert (forall k, loans w1 !! k = repaired w <$> loans w !! k) as Hall.
  { intros k. rewrite Hloans. cbn [w0 loans].
    destruct (loans w !! k) as [l|] eqn:Hk.
    - rewrite bool_decide_eq_true_2; [reflexivity|].
      apply list_elem_of_fmap. exists l. split; [now rewrite (Hkeyed k l Hk)|].
      apply Hrows. split; [reflexivity|now exists k].
    - now destruct (bool_decide _). }
  eexists. split; [|split; [|split]].
  - unfold migration.updateLoanBalances.
    rewrite (bind_returned (log _) _ w _ tt eq_refl).
    unfold prisma.loan_findMany in Hfind. injection Hfind as Hfind.
    match goal with
    | |- bind (prisma.loan_findMany _) _ ?wa = _ =>
        rewrite (bind_returned (prisma.loan_findMany _) _ wa wa rows)
          by (unfold prisma.loan_findMany; cbn [loans]; now rewrite Hfind)
    end.
    match goal with
    | |- bind (log ?e) _ ?wa = _ => rewrite (bind_returned (log e) _ wa w0 tt eq_refl)
    end.
    rewrite (bind_returned _ _ _ _ _ Hloop). reflexivity.
  - cbn [log loans fst snd]. apply map_eq. intros k. rewrite lookup_fmap. apply Hall.
  - cbn [log payments]. exact Hpay.
  - intros k l'. cbn [log loans]. rewrite Hall.
    destruct (loans w !! k) as [l|] eqn:Hk; [|discriminate]. intros [= <-].
    pose proof (Hkeyed k l Hk) as Hid.
    rewrite (paidTotal_payments w) by (cbn [log payments]; exact Hpay).
    unfold repaired. cbn. rewrite Hid. split; reflexivity.
Qed.

Lemma updateLoanBalances_repairs_every_loan_witness :
  exists w',
    migration.updateLoanBalances (worldAt 0 [paidLoan]) = (Returned tt, w') /\
    loans w' = repaired (worldAt 0 [paidLoan]) <$> loans (worldAt 0 [paidLoan]) /\
    reconciled w'.
Proof.
  destruct (updateLoanBalances_repairs_every_loan (worldAt 0 [paidLoan]))
    as (w' & Hrun & Hloans & _ & Hrec).
  - apply worldAt_wellKeyed.
  - exists w'. split; [exact Hrun|]. split; [exact Hloans|exact Hrec].
Defined.

(** ** The payment handler keeps the books the repair script would write *)

Lemma counted_paymentRow (userId : string) (paymentData : CreatePaymentRequest.t)
    (stamp : Z) (k : string) :
  migration.counted k (paymentRow userId paymentData stamp)
    = bool_decide (CreatePaymentRequest.loanId paymentData = k) &&
      payments.updatesBalance (CreatePaymentRequest.paymentType paymentData).
Proof.
  unfold migration.counted, paymentRow. cbn.
  destruct (CreatePaymentRequest.paymentType paymentData); cbn;
    now rewrite ?andb_true_r, ?andb_false_r.
Qed.

Lemma paidTotal_snoc (w w' : World) (p : Payment.t) (k : string) :
  payments w' = payments w ++ [p] ->
  paidTotal w' k = if migration.counted k p then (paidTotal w k + Payment.amount p)%Q
                   else paidTotal w k.
Proof.
  unfold paidTotal. intros ->. rewrite filter_app, fold_left_app, filter_cons, filter_nil.
  destruct (migration.counted k p).
  - rewrite decide_True by reflexivity. reflexivity.
  - rewrite decide_False by discriminate. reflexivity.
Qed.

Lemma floor_after_payment (out prin paid a : Q) :
  (0 <= a)%Q -> (out == Qmax 0 (prin - paid))%Q ->
  (Qmax 0 (out - a) == Qmax 0 (prin - (paid + a)))%Q.
Proof.
  intros Ha Hout.
  destruct (Q.max_spec 0 (prin - paid)) as [[H1 E1]|[H1 E1]],
           (Q.max_spec 0 (out - a)) as [[H2 E2]|[H2 E2]],
           (Q.max_spec 0 (prin - (paid + a))) as [[H3 E3]|[H3 E3]];
    rewrite E2, E3; rewrite E1 in Hout; lra.
Qed.

(** If every loan's [totalAmountPaid] and [outstandingBalance] are what the
    repair script would compute from the payment rows, they still are after
    the payment handler has recorded a payment of a non-negative amount, of
    any type: the handler and the script count the same payment types. *)
Theorem recordPayment_keeps_books_reconciled (tz : Z) (userId : string)
    (paymentData : CreatePaymentRequest.t) (l : Loan.t) (w : World) :
  loans w !! CreatePaymentRequest.loanId paymentData = Some l ->
  (0 <= CreatePaymentRequest.amount paymentData)%Q ->
  reconciled w ->
  exists response w',
    payments.recordPayment tz userId paymentData w = (Returned response, w') /\
    Response.statusCode response = 201%Z /\
    reconciled w'.
Proof.
  intros Hl Hamount Hrec.
  destruct (Hrec _ _ Hl) as [Htot Hout].
  destruct (payments.updatesBalance (CreatePaymentRequest.paymentType paymentData)) eqn:Hty.
  - destruct (recordPayment_run tz userId paymentData l w Hl Hty)
      as (r & w1 & w2 & w' & _ & Hrun & Hloans & Hpay & _).
    eexists _, w'. split; [exact Hrun|]. split; [reflexivity|].
    intros k l'. rewrite Hloans, (paidTotal_snoc w w' _ k Hpay), counted_paymentRow, Hty.
    destruct (decide (CreatePaymentRequest.loanId paymentData = k)) as [<-|Hne].
    + rewrite lookup_insert_eq, bool_decide_eq_true_2 by reflexivity.
      intros [= <-]. cbn. split.
      * now rewrite Htot.
      * now apply floor_after_payment.
    + rewrite lookup_insert_ne, bool_decide_eq_false_2 by assumption. apply Hrec.
  - destruct (recordPayment_run_other tz userId paymentData l w Hl Hty)
      as (r & stamp & w' & Hrun & Hpay & Hloans).
    eexists _, w'. split; [exact Hrun|]. split; [reflexivity|].
    intros k l'. rewrite Hloans, (paidTotal_snoc w w' _ k Hpay), counted_paymentRow, Hty.
    rewrite andb_false_r.
    destruct (decide (CreatePaymentRequest.loanId paymentData = k)) as [<-|Hne].
    + rewrite lookup_insert_eq. intros [= <-]. cbn. split; assumption.
    + rewrite lookup_insert_ne by assumption. apply Hrec.
Qed.

Lemma recordPayment_keeps_books_reconciled_witness :
  exists response w',
    payments.recordPayment 0 "user-1" (payment "loan-1" 500 PaymentType.EMI_PAYMENT)
      (worldAt (JsDate.utc 2024 2 20 12 0) [scenarioLoan]) = (Returned response, w') /\
    Response.statusCode response = 201%Z /\
    reconciled w'.
Proof.
  apply (recordPayment_keeps_books_reconciled 0 "user-1"
           (payment "loan-1" 500 PaymentType.EMI_PAYMENT) scenarioLoan
           (worldAt (JsDate.utc 2024 2 20 12 0) [scenarioLoan])).
  - vm_compute. reflexivity.
  - vm_compute. discriminate.
  - intros k l Hk. apply elem_of_list_to_map_2 in Hk.
    apply list_elem_of_fmap in Hk as (x & [= -> ->] & Hx).
    apply list_elem_of_singleton in Hx as ->. vm_compute. split; reflexivity.
Defined.

(** ** Approving a loan *)

(** [PUT /api/loans/:id/approve] checks no status: a stored loan of any
    status becomes APPROVED, approved by the caller at the instant read.
    Remarks that are absent or empty leave the stored remarks as they are;
    the balances and the disbursement date stay in either case. *)
Theorem approveLoan_checks_no_status (id userId : string) (note : option string)
    (l : Loan.t) (w : World) :
  loans w !! id = Some l ->
  exists l' w',
    loans.approveLoan id userId note w
      = (Returned (Response.mk 200 true "Loan approved successfully" (Some l')), w') /\
    loans w' = <[id := l']> (loans w) /\
    payments w' = payments w /\
    Loan.status l' = LoanStatus.APPROVED /\
    Loan.approvalDate l' = Some (clock w (ticks w)) /\
    Loan.approvedById l' = Some userId /\
    Loan.remarks l' = match note with
                      | Some (String c r) => Some (String c r)
                      | _ => Loan.remarks l
                      end /\
    Loan.disbursementDate l' = Loan.disbursementDate l /\
    Loan.outstandingBalance l' = Loan.outstandingBalance l /\
    Loan.totalAmountPaid l' = Loan.totalAmountPaid l /\
    Loan.isOverdue l' = Loan.isOverdue l.
Proof.
  intros Hl.
  unfold loans.approveLoan, new_Date, prisma.loan_update, bind, ret. cbn [loans]. rewrite Hl.
  eexists _, _. split; [reflexivity|].
  destruct note as [[|c r]|]; repeat split.
Qed.

Lemma approveLoan_checks_no_status_witness :
  exists l' w',
    loans.approveLoan "loan-1" "user-2" (Some ""%string)
      (worldAt (JsDate.utc 2024 5 1 0 0) [lapsedLoan])
      = (Returned (Response.mk 200 true "Loan approved successfully" (Some l')), w') /\
    Loan.status lapsedLoan = LoanStatus.ACTIVE /\
    Loan.status l' = LoanStatus.APPROVED /\
    Loan.remarks l' = Loan.remarks lapsedLoan /\
    Loan.isOverdue l' = true.
Proof.
  destruct (approveLoan_checks_no_status "loan-1" "user-2" (Some ""%string) lapsedLoan
              (worldAt (JsDate.utc 2024 5 1 0 0) [lapsedLoan]))
    as (l' & w' & Hrun & _ & _ & Hst & _ & _ & Hrem & _ & _ & _ & Hover).
  - vm_compute. reflexivity.
  - exists l', w'. split; [exact Hrun|]. split; [reflexivity|]. split; [exact Hst|].
    split; [exact Hrem|]. rewrite Hover. reflexivity.
Defined.

(** ** The payment schedule *)

Lemma round2_nonneg (x : Q) :
  (0 <= x)%Q -> (0 <= helpers.Math_round (x * 100) / 100)%Q.
Proof.
  intros Hx. unfold helpers.Math_round.
  assert (0 <= Qfloor (x * 100 + (1 # 2)))%Z as Hfloor.
  { change 0%Z with (Qfloor 0). apply Qfloor_resp_le. lra. }
  rewrite Zle_Qle in Hfloor. generalize dependent (inject_Z (Qfloor (x * 100 + (1 # 2)))).
  intros q Hq. change (0 <= q)%Q in Hq. apply Qle_shift_div_l; [reflexivity|]. lra.
Qed.

Lemma round2_zero (x : Q) :
  (x == 0)%Q -> (helpers.Math_round (x * 100) / 100 == 0)%Q.
Proof.
  intros Hx. unfold helpers.Math_round.
  assert (x * 100 + (1 # 2) == 1 # 2)%Q as -> by lra. reflexivity.
Qed.



Section Schedule.
Import scheduleRoute.
Variable tz : Z.
Variable paymentId : Payment.t -> string.
Variable paymentDate : Payment.t -> Z.



(** The loop of the schedule always comes to an end and reads the clock
    only. *)
Lemma schedule_from_run (disbursementDate : Z) (monthlyRate emiAmount : Q)
    (pays : list Payment.t) :
  forall (fuel : nat) (month : Z) (remainingPrincipal : Q) (w : World),
  exists rows w',
    schedule_from tz paymentId paymentDate disbursementDate monthlyRate emiAmount pays
                  fuel month remainingPrincipal w = (Returned rows, w') /\
    loans w' = loans w /\ payments w' = payments w /\ console w' = console w /\
    (length rows <= fuel)%nat /\
    (fuel <> O -> rows <> []) /\
    (forall i row, rows !! i = Some row ->
       ScheduleRow.month row = (month + Z.of_nat i)%Z /\
       ScheduleRow.dueDate row =
         JsDate.setMonth tz disbursementDate
           (JsDate.getMonth tz disbursementDate + (month + Z.of_nat i))%Z) /\
    ((0 <= remainingPrincipal)%Q ->
       (forall row, row ∈ rows -> (0 <= ScheduleRow.remainingPrincipal row)%Q) /\
       ((length rows < fuel)%nat ->
          forall row, last rows = Some row -> (ScheduleRow.remainingPrincipal row == 0)%Q)).
Proof.
  induction fuel as [|fuel IH]; intros month rem w.
  - exists [], w. split; [reflexivity|]. do 3 (split; [reflexivity|]).
    split; [reflexivity|]. split; [congruence|]. split.
    + intros i row Hi. rewrite lookup_nil in Hi. discriminate.
    + intros _. split; [intros row Hrow; inversion Hrow|]. cbn. lia.
  - cbn [schedule_from]. cbv zeta.
    set (dueDate := JsDate.setMonth tz disbursementDate
                      (JsDate.getMonth tz disbursementDate + month)%Z).
    set (principalAmount := Qmin (emiAmount - rem * monthlyRate) rem).
    set (monthPayment := List.find _ pays).
    assert (exists st w1,
              (match monthPayment with
               | Some _ => ret ScheduleStatus.PAID
               | None =>
                   bind new_Date
                     (fun now => ret (if (dueDate <? now)%Z then ScheduleStatus.OVERDUE
                                      else ScheduleStatus.PENDING))
               end) w = (Returned st, w1) /\
              loans w1 = loans w /\ payments w1 = payments w /\ console w1 = console w)
      as (st & w1 & Hst & Hl1 & Hp1 & Hc1).
    { destruct monthPayment; eexists _, _; (split; [reflexivity|]); repeat split. }
    rewrite (bind_returned _ _ _ _ _ Hst).
    match goal with |- context [ret [?r]] => set (row := r) end.
    assert ((0 <= rem)%Q -> (0 <= rem - principalAmount)%Q) as Hrest.
    { intros Hrem. pose proof (Q.le_min_r (emiAmount - rem * monthlyRate) rem) as Hmin.
      fold principalAmount in Hmin. lra. }
    assert (ScheduleRow.month row = (month + Z.of_nat 0)%Z /\
            ScheduleRow.dueDate row =
              JsDate.setMonth tz disbursementDate
                (JsDate.getMonth tz disbursementDate + (month + Z.of_nat 0))%Z) as Hfirst.
    { cbn [Z.of_nat]. rewrite Z.add_0_r. split; reflexivity. }
    assert ((0 <= rem)%Q -> (0 <= ScheduleRow.remainingPrincipal row)%Q) as Hrow.
    { intros Hrem. apply round2_nonneg. auto. }
    destruct (Qle_bool (rem - principalAmount) 0) eqn:Hdone.
    + exists [row], w1. split; [reflexivity|]. do 3 (split; [assumption|]).
      split; [cbn; lia|]. split; [congruence|]. split.
      * intros [|i] r Hi; [injection Hi as <-; exact Hfirst|].
        cbn in Hi. try rewrite lookup_nil in Hi. discriminate.
      * intros Hrem. split.
        -- intros r Hr. apply list_elem_of_singleton in Hr as ->. auto.
        -- intros _ r [= <-]. apply round2_zero. apply Qle_bool_imp_le in Hdone.
           specialize (Hrest Hrem). lra.
    + destruct (IH (month + 1)%Z (rem - principalAmount)%Q w1)
        as (rest & w' & Hrun & Hl & Hp & Hc & Hlen & Hne & Hidx & Hsign).
      exists (row :: rest), w'. split; [now rewrite (bind_returned _ _ _ _ _ Hrun)|].
      do 3 (split; [congruence|]). split; [cbn; lia|]. split; [congruence|]. split.
      * intros [|i] r Hi; [injection Hi as <-; exact Hfirst|].
        cbn in Hi. destruct (Hidx i r Hi) as [-> ->]. split; [lia|f_equal; lia].
      * intros Hrem. destruct (Hsign (Hrest Hrem)) as [Hpos Hlast]. split.
        -- intros r Hr. apply elem_of_cons in Hr as [->|Hr]; auto.
        -- intros Hshort r Hr. cbn [length] in Hshort.
           destruct rest as [|r' rest'].
           ++ exfalso. apply Hne; [lia|reflexivity].
           ++ rewrite last_cons_cons in Hr. apply Hlast; [lia|exact Hr].
Qed.

(** The schedule route answers 404 for a loan that is not stored or not yet
    disbursed.  Otherwise it answers 200 and reads only; the schedule has
    at most [tenure] rows, numbered from 1 and due month by month after the
    disbursement; and for a principal that is not negative no row shows a
    negative remaining principal, and a schedule that stops before the
    tenure ends on a remaining principal of 0. *)
Theorem paymentSchedule_shape (loanId : string) (w : World) :
  (loans w !! loanId = None \/
   (exists l, loans w !! loanId = Some l /\ Loan.disbursementDate l = None) ->
   paymentSchedule tz paymentId paymentDate loanId w
     = (Returned (Response.mk 404 false "Loan not found or not disbursed" None), w)) /\
  (forall l disbursementDate,
     loans w !! loanId = Some l ->
     Loan.disbursementDate l = Some disbursementDate ->
     exists data w',
       paymentSchedule tz paymentId paymentDate loanId w
         = (Returned (Response.mk 200 true "Payment schedule retrieved successfully"
                        (Some data)), w') /\
       loans w' = loans w /\ payments w' = payments w /\
       (length (PaymentSchedule.schedule data) <= Z.to_nat (Loan.tenure l))%nat /\
       (forall i row, PaymentSchedule.schedule data !! i = Some row ->
          ScheduleRow.month row = (1 + Z.of_nat i)%Z /\
          ScheduleRow.dueDate row =
            JsDate.setMonth tz disbursementDate
              (JsDate.getMonth tz disbursementDate + (1 + Z.of_nat i))%Z) /\
       ((0 <= Loan.principalAmount l)%Q ->
          (forall row, row ∈ PaymentSchedule.schedule data ->
             (0 <= ScheduleRow.remainingPrincipal row)%Q) /\
          ((length (PaymentSchedule.schedule data) < Z.to_nat (Loan.tenure l))%nat ->
             forall row, last (PaymentSchedule.schedule data) = Some row ->
               (ScheduleRow.remainingPrincipal row == 0)%Q))).
Proof.
  split.
  - intros [Hl|(l & Hl & Hd)]; unfold paymentSchedule, prisma.loan_findUnique, bind, ret;
      rewrite Hl; [reflexivity|]. now rewrite Hd.
  - intros l d Hl Hd. unfold paymentSchedule.
    rewrite (bind_returned _ _ w w (Some l)) by (unfold prisma.loan_findUnique; now rewrite Hl).
    rewrite Hd.
    match goal with |- context [prisma.payment_findMany ?f] =>
      rewrite (bind_returned (prisma.payment_findMany f) _ w w _ eq_refl) end.
    cbv zeta.
    match goal with |- context [schedule_from _ _ _ ?d0 ?r ?e ?ps ?n ?m ?p] =>
      destruct (schedule_from_run d0 r e ps n m p w)
        as (rows & w' & Hrun & Hloans & Hpay & _ & Hlen & _ & Hidx & Hsign) end.
    rewrite (bind_returned _ _ _ _ _ Hrun).
    eexists _, w'. split; [reflexivity|].
    cbn [PaymentSchedule.schedule].
    split; [exact Hloans|]. split; [exact Hpay|]. split; [exact Hlen|].
    split; [exact Hidx|exact Hsign].
Qed.

End Schedule.

Lemma paymentSchedule_shape_witness :
  exists data w',
    scheduleRoute.paymentSchedule 0 (fun _ => "payment-1"%string)
        (fun _ => JsDate.utc 2024 2 17 0 0) "loan-1"
        (worldAt (JsDate.utc 2024 2 20 12 0) [scenarioLoan])
      = (Returned (Response.mk 200 true "Payment schedule retrieved successfully"
                     (Some data)), w') /\
    (length (PaymentSchedule.schedule data) <= 12)%nat /\
    (forall row, row ∈ PaymentSchedule.schedule data ->
       (0 <= ScheduleRow.remainingPrincipal row)%Q).
Proof.
  destruct (proj2 (paymentSchedule_shape 0 (fun _ => "payment-1"%string)
                     (fun _ => JsDate.utc 2024 2 17 0 0) "loan-1"
                     (worldAt (JsDate.utc 2024 2 20 12 0) [scenarioLoan]))
              scenarioLoan (JsDate.utc 2024 1 17 0 0))
    as (data & w' & Hrun & _ & _ & Hlen & _ & Hsign).
  - vm_compute. reflexivity.
  - reflexivity.
  - exists data, w'. split; [exact Hrun|]. split; [exact Hlen|].
    apply Hsign. vm_compute. discriminate.
Defined.

